(** * The aim predictor of [aim_calculator.py]

    A shallow embedding of the class [AimCalculator]: the ship catalog
    loaded from JSON, the parameter lookup with its per-class defaults,
    the time-of-flight model, the lead and shell-drop computations and
    the clamped aim point.  Around it, the parts of the other modules
    that feed it or use its result: the screen regions of
    [capture_screen.py], the detections of [yolo_detector.py], the ship
    information of [ocr_reader.py], and the target selection and pointer
    movement of [main.py].

    Conventions of the embedding.
    - Python objects that reach the calculator (JSON documents, the
      entries of a target dictionary) are values of [pyval].
    - Python [float] and [int] numbers are read as real numbers; rounding
      error, overflow and NaN are outside the model.  Screen coordinates
      are integers ([Z]).
    - A Python [str] is a [string] of ASCII characters, and [str.lower]
      is ASCII lower-casing.
    - A call that may raise returns a [result]: [Ok v] or [Raise e]. *)

From Stdlib Require Import Reals Lra ZArith String Ascii.
From stdpp Require Import gmap strings.

#[local] Set Warnings "-register-all".

(** ** Python values, exceptions and the error monad *)

Inductive pyval : Type :=
  | PNone
  | PBool (b : bool)
  | PNum (r : R)
  | PStr (s : string)
  | PList (l : list pyval)
  | PDict (d : gmap string pyval).

Inductive exn : Type :=
  | ZeroDivisionError
  | TypeError
  | AttributeError
  | OSError (msg : string)
  | JSONDecodeError (msg : string).

Inductive result (A : Type) : Type :=
  | Ok (a : A)
  | Raise (e : exn).

Arguments Ok {A} a.
Arguments Raise {A} e.

#[global] Instance result_ret : MRet result := fun A a => Ok a.

#[global] Instance result_bind : MBind result := fun A B f m =>
  match m with
  | Ok a => f a
  | Raise e => Raise e
  end.

(** [try: body except Exception as e: handler(e)]; every constructor of
    [exn] is a subclass of [Exception]. *)
Definition try_except {A : Type} (body : result A) (handler : exn -> result A)
  : result A :=
  match body with
  | Ok a => Ok a
  | Raise e => handler e
  end.

(** [str(e)] as it is interpolated in the log line. *)
Definition exn_message (e : exn) : string :=
  match e with
  | ZeroDivisionError => "division by zero"
  | TypeError => "unsupported operand type(s)"
  | AttributeError => "object has no attribute"
  | OSError msg => msg
  | JSONDecodeError msg => msg
  end.

(** ** Strings *)

Definition lower_ascii (c : ascii) : ascii :=
  let n := nat_of_ascii c in
  if (65 <=? n)%nat && (n <=? 90)%nat then ascii_of_nat (n + 32) else c.

(** [s.lower()] *)
Fixpoint lower (s : string) : string :=
  match s with
  | EmptyString => EmptyString
  | String c rest => String (lower_ascii c) (lower rest)
  end.

Local Open Scope R_scope.

(** ** Python primitives *)

(** Truth value of an object, as tested by [if x] and [not x]. *)
Definition truthy (v : pyval) : bool :=
  match v with
  | PNone => false
  | PBool b => b
  | PNum r => if Req_dec_T r 0 then false else true
  | PStr s => negb (String.eqb s "")
  | PList l => match l with [] => false | _ :: _ => true end
  | PDict d => negb (bool_decide (d = ∅))
  end.

(** [d.get(key, dflt)] on a dictionary. *)
Definition dict_get (d : gmap string pyval) (key : string) (dflt : pyval)
  : pyval :=
  match d !! key with
  | Some v => v
  | None => dflt
  end.

(** [obj.get(key, dflt)] on an arbitrary object: only dictionaries have
    the method. *)
Definition py_get (obj : pyval) (key : string) (dflt : pyval) : result pyval :=
  match obj with
  | PDict d => Ok (dict_get d key dflt)
  | _ => Raise AttributeError
  end.

(** The number an object stands for in float arithmetic; [bool] is a
    subclass of [int].  Every other operand ends in a [TypeError]. *)
Definition as_num (v : pyval) : result R :=
  match v with
  | PNum r => Ok r
  | PBool b => Ok (if b then 1 else 0)
  | _ => Raise TypeError
  end.

(** [x / y] *)
Definition py_div (x y : R) : result R :=
  if Req_dec_T y 0 then Raise ZeroDivisionError else Ok (x / y).

(** [math.radians(x)] *)
Definition radians (x : R) : R := x * (PI / 180).

(** [int(x)] on a float: truncation toward zero. *)
Definition py_int (x : R) : Z :=
  if Rle_dec 0 x then Zfloor x else Zceil x.

(** A dictionary literal with the three keys of a parameter record. *)
Definition params (max_speed acceleration shell_velocity : R) : pyval :=
  PDict (<["max_speed" := PNum max_speed]>
        (<["acceleration" := PNum acceleration]>
        (<["shell_velocity" := PNum shell_velocity]> ∅))).

(** ** The calculator *)

Record AimCalculator : Type := {
  ship_data : pyval;
  gravity : R;
  default_shell_velocity : R
}.

(** The outcome of [json.load(open(path))] for each path. *)
Definition filesystem : Type := string -> result pyval.

(** [load_ship_data]: the document and the lines printed. *)
Definition load_ship_data (fs : filesystem) (ship_data_path : string)
  : result (pyval * list string) :=
  try_except
    (doc ← fs ship_data_path; Ok (doc, []))
    (fun e => Ok (PDict ∅, ["Error loading ship data: " +:+ exn_message e])).

(** [__init__] *)
Definition init (fs : filesystem) (ship_data_path : string)
  : result (AimCalculator * list string) :=
  '(doc, out) ← load_ship_data fs ship_data_path;
  Ok ({| ship_data := doc; gravity := 9.8; default_shell_velocity := 800 |},
      out).

(** The calculator [__init__] builds around a loaded document. *)
Definition with_catalog (doc : pyval) : AimCalculator :=
  {| ship_data := doc; gravity := 9.8; default_shell_velocity := 800 |}.

(** [x.lower() if x else "unknown"] *)
Definition normalize (x : pyval) : result string :=
  if truthy x then
    match x with
    | PStr s => Ok (lower s)
    | _ => Raise AttributeError
    end
  else Ok "unknown"%string.

(** The block under [if not ship_params:] in [get_ship_params]: the
    record returned for a ship the catalog does not describe. *)
Definition default_params (ship_type : string) : pyval :=
  if String.eqb ship_type "destroyer" then params 35.0 2.0 800
  else if String.eqb ship_type "cruiser" then params 32.0 1.8 850
  else if String.eqb ship_type "battleship" then params 28.0 1.3 800
  else params 30.0 1.5 800.

(** [get_ship_params] *)
Definition get_ship_params (self : AimCalculator) (ship_type ship_name : pyval)
  : result pyval :=
  ship_type ← normalize ship_type;
  ship_name ← normalize ship_name;
  type_data ← py_get (ship_data self) (ship_type +:+ "s") (PDict ∅);
  ship_params ← py_get type_data ship_name (PDict ∅);
  if negb (truthy ship_params) then Ok (default_params ship_type)
  else Ok ship_params.

(** [calculate_time_of_flight] *)
Definition calculate_time_of_flight (self : AimCalculator)
    (distance_km shell_velocity : R) : result R :=
  let distance_m := distance_km * 1000 in
  flat ← py_div distance_m shell_velocity;
  arc ← py_div (gravity self * distance_m ^ 2) (2 * shell_velocity ^ 2);
  Ok (flat + arc).

(** [calculate_lead_distance] *)
Definition calculate_lead_distance (self : AimCalculator)
    (target_data : gmap string pyval) : result (R * R * R) :=
  let distance_km := dict_get target_data "distance" (PNum 10) in
  let speed_knots := dict_get target_data "speed" (PNum 0) in
  let angle_degrees := dict_get target_data "angle" (PNum 90) in
  let ship_type := dict_get target_data "ship_type" (PStr "cruiser") in
  let ship_name := dict_get target_data "ship_name" (PStr "unknown") in
  ship_params ← get_ship_params self ship_type ship_name;
  shell_velocity ←
    py_get ship_params "shell_velocity" (PNum (default_shell_velocity self));
  speed_knots ← as_num speed_knots;
  let speed_ms := speed_knots * 0.5144 in
  angle_degrees ← as_num angle_degrees;
  let angle_rad := radians angle_degrees in
  let effective_speed := speed_ms * sin angle_rad in
  distance_km ← as_num distance_km;
  shell_velocity ← as_num shell_velocity;
  tof ← calculate_time_of_flight self distance_km shell_velocity;
  let lead_distance_m := effective_speed * tof in
  let pixels_per_km_at_10km := 100 in
  scale ← py_div 10 distance_km;
  let pixels_per_km := pixels_per_km_at_10km * scale in
  let lead_distance_pixels := lead_distance_m / 1000 * pixels_per_km in
  let aim_point_offset_x := lead_distance_pixels * sin angle_rad in
  let aim_point_offset_y := - lead_distance_pixels * cos angle_rad in
  Ok (lead_distance_pixels, aim_point_offset_x, aim_point_offset_y).

(** [calculate_aim_point] *)
Definition calculate_aim_point (self : AimCalculator) (target_center : Z * Z)
    (target_data : gmap string pyval) (screen_size : Z * Z) : result (Z * Z) :=
  '(_, offset_x, offset_y) ← calculate_lead_distance self target_data;
  let aim_x := (target_center.1 + py_int offset_x)%Z in
  let aim_y := (target_center.2 + py_int offset_y)%Z in
  let aim_x := Z.max 0 (Z.min aim_x screen_size.1) in
  let aim_y := Z.max 0 (Z.min aim_y screen_size.2) in
  Ok (aim_x, aim_y).

(** [calculate_shell_drop] *)
Definition calculate_shell_drop (self : AimCalculator)
    (distance_km shell_velocity : R) : result R :=
  tof ← calculate_time_of_flight self distance_km shell_velocity;
  let drop_m := 0.5 * gravity self * tof ^ 2 in
  let pixels_per_100m_at_10km := 10 in
  scale ← py_div 10 distance_km;
  let pixels_per_100m := pixels_per_100m_at_10km * scale in
  let drop_pixels := drop_m / 100 * pixels_per_100m in
  Ok drop_pixels.

(** ** Vocabulary of the specification *)

(** A catalog document has the shape the data model gives it: a mapping
    from plural class names to mappings from ship names to records. *)
Definition catalog_shaped (doc : pyval) : Prop :=
  exists d, doc = PDict d /\
    forall k v, d !! k = Some v -> exists t, v = PDict t.

(** [catalog[shipClass + "s"][shipId]], when there is such an entry. *)
Definition catalog_entry (doc : pyval) (ship_class ship_id : string)
  : option pyval :=
  match doc with
  | PDict d =>
      match d !! (ship_class +:+ "s") with
      | Some (PDict t) => t !! ship_id
      | _ => None
      end
  | _ => None
  end.

(** The shell velocity the lead computation resolves for a target: the
    first two statements of [calculate_lead_distance] after the field
    extraction, read as a number. *)
Definition shell_velocity_for (self : AimCalculator)
    (target_data : gmap string pyval) : result R :=
  ship_params ←
    get_ship_params self
      (dict_get target_data "ship_type" (PStr "cruiser"))
      (dict_get target_data "ship_name" (PStr "unknown"));
  raw ← py_get ship_params "shell_velocity"
          (PNum (default_shell_velocity self));
  as_num raw.

(** The lead in pixels as a function of distance (km), speed (knots),
    bearing (degrees) and shell velocity (m/s): effective speed times
    time of flight, in km, times the pixel scale at that distance. *)
Definition lead_pixels (d s a v : R) : R :=
  (s * 0.5144 * sin (radians a))
  * (d * 1000 / v + 9.8 * (d * 1000) ^ 2 / (2 * v ^ 2))
  / 1000 * (100 * (10 / d)).

(** The values substituted for absent keys of a target dictionary. *)
Definition target_defaults : gmap string pyval :=
  <["distance" := PNum 10]>
  (<["speed" := PNum 0]>
  (<["angle" := PNum 90]>
  (<["ship_type" := PStr "cruiser"]>
  (<["ship_name" := PStr "unknown"]> ∅)))).

(** [clamp(x, lo, hi)] *)
Definition clamp (x lo hi : Z) : Z := Z.max lo (Z.min x hi).

(** [n] is an integer nearest to [x]. *)
Definition is_nearest (n : Z) (x : R) : Prop := Rabs (IZR n - x) <= 1 / 2.

(** A broadside destroyer at the reference distance. *)
Definition broadside_target : gmap string pyval :=
  <["distance" := PNum 10]>
  (<["speed" := PNum 25]>
  (<["angle" := PNum 90]>
  (<["ship_type" := PStr "destroyer"]> ∅))).

(** A target of which only the speed was read. *)
Definition speed_only_target : gmap string pyval :=
  <["speed" := PNum 25]> ∅.

(** A catalog with a single destroyer. *)
Definition one_ship_catalog : pyval :=
  PDict (<["destroyers" :=
            PDict (<["shimakaze" := params 39.0 2.2 915]> ∅)]> ∅).

(** The shell velocity resolved for a ship type and a ship name: the
    lookup and the [.get('shell_velocity', ...)] of
    [calculate_lead_distance], read as a number. *)
Definition resolve_shell_velocity (self : AimCalculator)
    (ship_type ship_name : pyval) : result R :=
  ship_params ← get_ship_params self ship_type ship_name;
  raw ← py_get ship_params "shell_velocity"
          (PNum (default_shell_velocity self));
  as_num raw.

(** The sample target of the module's self-test. *)
Definition sample_target : gmap string pyval :=
  <["distance" := PNum 8.5]>
  (<["speed" := PNum 25]>
  (<["angle" := PNum 45]>
  (<["ship_type" := PStr "destroyer"]>
  (<["ship_name" := PStr "shimakaze"]> ∅)))).

(** ** Screen regions ([capture_screen.py]) *)

(** A monitor or a region to grab: the dictionary with the keys
    ['left'], ['top'], ['width'] and ['height']. *)
Record region : Type := {
  r_left : Z;
  r_top : Z;
  r_width : Z;
  r_height : Z
}.

(** [capture_region]: the region handed to the screen grabber. *)
Definition capture_region (monitor : region) (x y width height : Z) : region :=
  {| r_left := r_left monitor + x;
     r_top := r_top monitor + y;
     r_width := width;
     r_height := height |}.

(** [capture_minimap] *)
Definition capture_minimap (monitor : region) (game_resolution : Z * Z)
  : region :=
  let minimap_size := py_int (IZR game_resolution.2 * 0.25) in
  let minimap_x := (game_resolution.1 - minimap_size - 20)%Z in
  let minimap_y := (game_resolution.2 - minimap_size - 20)%Z in
  capture_region monitor minimap_x minimap_y minimap_size minimap_size.

(** [capture_target_info_area] *)
Definition capture_target_info_area (monitor : region)
    (game_resolution : Z * Z) : region :=
  let width := py_int (IZR game_resolution.1 * 0.3) in
  let height := py_int (IZR game_resolution.2 * 0.1) in
  let x := ((game_resolution.1 - width) / 2)%Z in
  let y := py_int (IZR game_resolution.2 * 0.05) in
  capture_region monitor x y width height.

(** [capture_aim_area] *)
Definition capture_aim_area (monitor : region) : region :=
  let screen_width := r_width monitor in
  let screen_height := r_height monitor in
  let center_x := (screen_width / 2)%Z in
  let center_y := (screen_height / 2)%Z in
  let capture_size := py_int (IZR screen_height * 0.4) in
  let x := (center_x - capture_size / 2)%Z in
  let y := (center_y - capture_size / 2)%Z in
  capture_region monitor x y capture_size capture_size.

(** ** Detections ([yolo_detector.py]) *)

(** A detection: the dictionary with the keys ['bbox'], ['confidence']
    and ['class']. *)
Record detection : Type := {
  bbox : Z * Z * Z * Z;
  confidence : R;
  cls : Z
}.

(** A row of a prediction tensor: [x1, y1, x2, y2, conf, cls]. *)
Definition prediction : Type := (R * R * R * R * R * R)%type.

(** The dictionary appended for one confident row. *)
Definition to_detection (row : prediction) : detection :=
  let '(x1, y1, x2, y2, conf, c) := row in
  {| bbox := (py_int x1, py_int y1, py_int x2, py_int y2);
     confidence := conf;
     cls := py_int c |}.

(** [detect_ships]; [model] is [None] when no model file was found and
    otherwise holds [self.model(image).pred], one tensor per image. *)
Definition detect_ships (model : option (list (list prediction)))
    (conf_threshold : R) : list detection :=
  match model with
  | None => []
  | Some preds =>
      fold_left
        (fun detections pred =>
           if (0 <? length pred)%nat then
             let confident_detections :=
               List.filter
                 (fun row : prediction =>
                    if Rle_dec conf_threshold row.1.2 then true else false)
                 pred in
             detections ++ map to_detection confident_detections
           else detections)
        preds []
  end.

(** [get_center_of_detection] *)
Definition get_center_of_detection (det : detection) : Z * Z :=
  let '(x1, y1, x2, y2) := bbox det in
  (((x1 + x2) / 2)%Z, ((y1 + y2) / 2)%Z).

(** [get_ship_dimensions] *)
Definition get_ship_dimensions (det : detection) : Z * Z :=
  let '(x1, y1, x2, y2) := bbox det in
  ((x2 - x1)%Z, (y2 - y1)%Z).

(** ** The frame loop ([main.py]) *)

(** The offsets [process_frame] adds to the boxes found in the aim area. *)
Definition aim_area_offsets (monitor : region) : Z * Z :=
  let screen_width := r_width monitor in
  let screen_height := r_height monitor in
  let center_x := (screen_width / 2)%Z in
  let center_y := (screen_height / 2)%Z in
  let capture_size := py_int (IZR screen_height * 0.4) in
  let x_offset := (center_x - capture_size / 2)%Z in
  let y_offset := (center_y - capture_size / 2)%Z in
  (x_offset, y_offset).

(** The body of the loop that builds [adjusted_ships]. *)
Definition adjust_ship (x_offset y_offset : Z) (ship : detection) : detection :=
  let '(x1, y1, x2, y2) := bbox ship in
  {| bbox := ((x1 + x_offset)%Z, (y1 + y_offset)%Z,
              (x2 + x_offset)%Z, (y2 + y_offset)%Z);
     confidence := confidence ship;
     cls := cls ship |}.

(** The distance of a ship's box center from the screen center. *)
Definition center_distance (center : Z * Z) (ship : detection) : R :=
  let '(x1, y1, x2, y2) := bbox ship in
  let ship_center_x := ((x1 + x2) / 2)%Z in
  let ship_center_y := ((y1 + y2) / 2)%Z in
  sqrt (IZR ((ship_center_x - center.1) ^ 2 + (ship_center_y - center.2) ^ 2)).

(** One iteration of the loop that looks for the ship closest to the
    screen center.  The state is [(min_distance, closest_ship,
    self.target_center)]; a [min_distance] of [None] is [float('inf')]. *)
Definition closest_step (center : Z * Z)
    (st : option R * option detection * option (Z * Z)) (ship : detection)
  : option R * option detection * option (Z * Z) :=
  let '(min_distance, closest_ship, target_center) := st in
  let '(x1, y1, x2, y2) := bbox ship in
  let ship_center_x := ((x1 + x2) / 2)%Z in
  let ship_center_y := ((y1 + y2) / 2)%Z in
  let distance :=
    sqrt (IZR ((ship_center_x - center.1) ^ 2 + (ship_center_y - center.2) ^ 2)) in
  let closer :=
    match min_distance with
    | None => true
    | Some m => if Rlt_dec distance m then true else false
    end in
  if closer then (Some distance, Some ship, Some (ship_center_x, ship_center_y))
  else st.

(** The whole loop, started with the target center of the previous frame. *)
Definition select_closest (center : Z * Z) (adjusted_ships : list detection)
    (target_center : option (Z * Z))
  : option R * option detection * option (Z * Z) :=
  fold_left (closest_step center) adjusted_ships (None, None, target_center).

(** [move_mouse_to_aim_point]: the positions handed to [SetCursorPos], in
    order; [cursor] is what [GetCursorPos] returns. *)
Definition move_mouse_to_aim_point (auto_aim : bool)
    (aim_point : option (Z * Z)) (cursor : Z * Z) : list (Z * Z) :=
  match aim_point with
  | None => []
  | Some (target_x, target_y) =>
      if negb auto_aim || negb (bool_decide (is_Some aim_point)) then []
      else
        let '(current_x, current_y) := cursor in
        let dx := (target_x - current_x)%Z in
        let dy := (target_y - current_y)%Z in
        let distance := sqrt (IZR (dx ^ 2 + dy ^ 2)) in
        if Rlt_dec 5 distance then
          if Rlt_dec distance 200 then
            let steps := Z.max 1 (py_int (distance / 10)) in
            map (fun i =>
                   let step_x := IZR current_x + IZR (dx * i) / IZR steps in
                   let step_y := IZR current_y + IZR (dy * i) / IZR steps in
                   (py_int step_x, py_int step_y))
                (seqZ 1 steps)
          else []
        else []
  end.

(** A number read by the recognizer, or [None] when the pattern did not
    match. *)
Definition opt_num (o : option R) : pyval :=
  match o with
  | Some r => PNum r
  | None => PNone
  end.

(** The dictionary [extract_target_info] returns ([ocr_reader.py]). *)
Definition target_info (distance speed : option R)
    (ship_info : gmap string pyval) : gmap string pyval :=
  <["distance" := opt_num distance]>
  (<["speed" := opt_num speed]>
  (<["ship_info" := PDict ship_info]> ∅)).

(** The target data of a frame: the recognizer's dictionary with the
    bearing estimate stored under ['angle']. *)
Definition frame_target_data (distance speed : option R)
    (ship_info : gmap string pyval) (angle : R) : gmap string pyval :=
  <["angle" := PNum angle]> (target_info distance speed ship_info).

(** ** Ship information in the recognized text ([ocr_reader.py]) *)

(** [needle in hay] on strings. *)
Fixpoint contains (needle hay : string) : bool :=
  match hay with
  | EmptyString => String.prefix needle EmptyString
  | String _ rest => String.prefix needle hay || contains needle rest
  end.

(** [text.split('\n')]: [cur] holds, reversed, the characters of the line
    being read. *)
Fixpoint split_newline (cur : string) (text : string) : list string :=
  match text with
  | EmptyString => [String.rev cur]
  | String c rest =>
      if Ascii.eqb c "010" then String.rev cur :: split_newline EmptyString rest
      else split_newline (String c cur) rest
  end.

(** The ASCII characters [str.strip] removes. *)
Definition is_space (c : ascii) : bool :=
  let n := nat_of_ascii c in
  ((9 <=? n)%nat && (n <=? 13)%nat) || ((28 <=? n)%nat && (n <=? 32)%nat).

Fixpoint lstrip (s : string) : string :=
  match s with
  | EmptyString => EmptyString
  | String c rest => if is_space c then lstrip rest else s
  end.

(** [line.strip()] *)
Definition strip (s : string) : string :=
  String.rev (lstrip (String.rev (lstrip s))).

(** The class names looked for, in the order of the source. *)
Definition ship_types : list string :=
  ["destroyer"; "cruiser"; "battleship"; "carrier"]%string.

(** A line mentions one of the class names. *)
Definition mentions_class (line : string) : bool :=
  existsb (fun ship_type => contains ship_type (lower line)) ship_types.

(** The body of the loop over the lines of the recognized text. *)
Definition ship_info_step (ship_info : gmap string pyval) (line : string)
  : gmap string pyval :=
  if existsb (fun ship_type => contains ship_type (lower line)) ship_types
  then
    let found :=
      match List.find (fun t => contains t (lower line)) ship_types with
      | Some t => PStr t
      | None => PNone
      end in
    <["name" := PStr (strip line)]> (<["type" := found]> ship_info)
  else ship_info.

(** The [ship_info] dictionary [extract_target_info] builds from the
    recognized text. *)
Definition extract_ship_info (text : string) : gmap string pyval :=
  let lines := split_newline EmptyString text in
  fold_left ship_info_step lines ∅.

(** Three detected ships: one far from the screen center (960, 540)
    and two at the same, smaller distance from it. *)
Definition far_ship : detection :=
  {| bbox := (100, 100, 200, 200)%Z; confidence := 0.9; cls := 0 |}.

Definition near_ship : detection :=
  {| bbox := (940, 520, 960, 540)%Z; confidence := 0.8; cls := 1 |}.

Definition tied_ship : detection :=
  {| bbox := (960, 540, 980, 560)%Z; confidence := 0.7; cls := 2 |}.

(** ** Basic facts about the primitives *)

Lemma py_div_ok (x y : R) : y <> 0 -> py_div x y = Ok (x / y).
Proof.
  intros Hy. unfold py_div. destruct (Req_dec_T y 0) as [E | _]; [ | reflexivity].
  contradiction.
Qed.

Lemma py_div_zero (x : R) : py_div x 0 = Raise ZeroDivisionError.
Proof.
  unfold py_div. destruct (Req_dec_T 0 0) as [_ | N]; [reflexivity | ].
  exfalso; apply N; reflexivity.
Qed.

Lemma lower_ascii_idem (c : ascii) : lower_ascii (lower_ascii c) = lower_ascii c.
Proof.
  destruct c as [[] [] [] [] [] [] [] []]; reflexivity.
Qed.

Lemma lower_idem (s : string) : lower (lower s) = lower s.
Proof.
  induction s as [ | c rest IH]; simpl.
  - reflexivity.
  - rewrite lower_ascii_idem, IH. reflexivity.
Qed.

Lemma normalize_str (s : string) :
  normalize (PStr s) = Ok (if String.eqb s "" then "unknown"%string else lower s).
Proof.
  unfold normalize, truthy. destruct (String.eqb s ""); reflexivity.
Qed.

Lemma normalize_lower (s : string) :
  normalize (PStr (lower s)) = normalize (PStr s).
Proof.
  rewrite !normalize_str. destruct s as [ | c rest]; simpl.
  - reflexivity.
  - rewrite lower_ascii_idem, lower_idem. reflexivity.
Qed.

Lemma init_with_catalog (fs : filesystem) (path : string) calc out :
  init fs path = Ok (calc, out) -> exists doc, calc = with_catalog doc.
Proof.
  unfold init, load_ship_data, try_except. destruct (fs path) as [doc | e]; simpl;
    intros H; injection H as <- _; eexists; reflexivity.
Qed.

Lemma bind_ok {A B : Type} (a : A) (f : A -> result B) : Ok a ≫= f = f a.
Proof. reflexivity. Qed.

Lemma time_of_flight_ok (doc : pyval) (d v : R) :
  v <> 0 ->
  calculate_time_of_flight (with_catalog doc) d v =
    Ok (d * 1000 / v + 9.8 * (d * 1000) ^ 2 / (2 * v ^ 2)).
Proof.
  intros Hv. unfold calculate_time_of_flight. cbn [gravity with_catalog].
  rewrite (py_div_ok _ v), bind_ok by assumption.
  rewrite py_div_ok, bind_ok by nra.
  reflexivity.
Qed.

(** ** Time of flight *)

(** C1: for a distance [d >= 0] km and a shell velocity [v > 0] m/s the
    time of flight is [d' / v + (9.8 * d'^2) / (2 * v^2)] with
    [d' = d * 1000]. *)
Theorem time_of_flight_formula (doc : pyval) (distance_km shell_velocity : R) :
  0 <= distance_km -> 0 < shell_velocity ->
  let d := distance_km * 1000 in
  let v := shell_velocity in
  calculate_time_of_flight (with_catalog doc) distance_km shell_velocity =
    Ok (d / v + (9.8 * d ^ 2) / (2 * v ^ 2)).
Proof.
  intros _ Hv d v. subst d v. apply time_of_flight_ok. lra.
Qed.

Lemma time_of_flight_formula_witness :
  0 <= 8.5 /\ 0 < 800 /\
  calculate_time_of_flight (with_catalog (PDict ∅)) 8.5 800 =
    Ok (8.5 * 1000 / 800 + (9.8 * (8.5 * 1000) ^ 2) / (2 * 800 ^ 2)).
Proof.
  split; [lra | split; [lra | ]].
  apply (time_of_flight_formula (PDict ∅) 8.5 800); lra.
Defined.

(** ** Shell drop *)

(** C4: for [d > 0] and [v > 0] the drop is
    [((0.5 * 9.8 * tof^2) / 100) * 10 * (10 / d)] pixels, where [tof] is
    the time of flight, itself [d' / v + 9.8 * d'^2 / (2 * v^2)]: gravity
    enters once in [tof] and once more in the free-fall term. *)
Theorem shell_drop_formula (doc : pyval) (distance_km shell_velocity : R) :
  0 < distance_km -> 0 < shell_velocity ->
  exists tof,
    calculate_time_of_flight (with_catalog doc) distance_km shell_velocity =
      Ok tof /\
    tof = distance_km * 1000 / shell_velocity
          + 9.8 * (distance_km * 1000) ^ 2 / (2 * shell_velocity ^ 2) /\
    calculate_shell_drop (with_catalog doc) distance_km shell_velocity =
      Ok (((0.5 * 9.8 * tof ^ 2) / 100) * 10 * (10 / distance_km)).
Proof.
  intros Hd Hv. eexists. split; [ | split; [reflexivity | ]].
  - apply time_of_flight_ok. lra.
  - unfold calculate_shell_drop. cbn [gravity with_catalog].
    rewrite time_of_flight_ok, bind_ok by lra.
    rewrite py_div_ok, bind_ok by lra. f_equal. lra.
Qed.

Lemma shell_drop_formula_witness :
  exists tof,
    calculate_time_of_flight (with_catalog (PDict ∅)) 10 800 = Ok tof /\
    tof = 10 * 1000 / 800 + 9.8 * (10 * 1000) ^ 2 / (2 * 800 ^ 2) /\
    calculate_shell_drop (with_catalog (PDict ∅)) 10 800 =
      Ok (((0.5 * 9.8 * tof ^ 2) / 100) * 10 * (10 / 10)).
Proof.
  apply (shell_drop_formula (PDict ∅) 10 800); lra.
Defined.

(** ** Catalog lookup *)

Lemma truthy_empty_dict : truthy (PDict ∅) = false.
Proof. reflexivity. Qed.

Lemma py_get_dict (d : gmap string pyval) (key : string) (dflt : pyval) :
  py_get (PDict d) key dflt = Ok (dict_get d key dflt).
Proof. reflexivity. Qed.

Lemma get_ship_params_absent (self : AimCalculator) (d : gmap string pyval)
    (ship_class ship_id : pyval) (cls id : string) :
  ship_data self = PDict d ->
  normalize ship_class = Ok cls -> normalize ship_id = Ok id ->
  d !! (cls +:+ "s") = None \/
    (exists t, d !! (cls +:+ "s") = Some (PDict t) /\ t !! id = None) ->
  get_ship_params self ship_class ship_id = Ok (default_params cls).
Proof.
  intros Hd Hc Hi Habs. unfold get_ship_params.
  rewrite Hc, bind_ok, Hi, bind_ok, Hd, py_get_dict, bind_ok. unfold dict_get.
  destruct Habs as [-> | (t & -> & Ht)]; rewrite py_get_dict, bind_ok; unfold dict_get.
  - rewrite lookup_empty, truthy_empty_dict. reflexivity.
  - rewrite Ht, truthy_empty_dict. reflexivity.
Qed.

(** C5: a ship whose normalized (class, name) pair has no catalog entry
    gets, without any exception, the default record of its class: the
    three named classes have their own records (the destroyer one with
    shell velocity 800) and every other class, the class of an empty or
    missing argument included, gets [{30.0, 1.5, 800}]. *)
Theorem fallback_params (doc : pyval) (ship_class ship_id : pyval)
    (cls id : string) :
  catalog_shaped doc ->
  normalize ship_class = Ok cls -> normalize ship_id = Ok id ->
  catalog_entry doc cls id = None ->
  get_ship_params (with_catalog doc) ship_class ship_id =
    Ok (default_params cls) /\
  default_params "destroyer" = params 35.0 2.0 800 /\
  default_params "cruiser" = params 32.0 1.8 850 /\
  default_params "battleship" = params 28.0 1.3 800 /\
  (cls <> "destroyer"%string -> cls <> "cruiser"%string ->
   cls <> "battleship"%string -> default_params cls = params 30.0 1.5 800) /\
  py_get (default_params "destroyer") "shell_velocity" PNone = Ok (PNum 800) /\
  normalize PNone = Ok "unknown"%string /\
  normalize (PStr "") = Ok "unknown"%string.
Proof.
  intros (d & -> & Hshape) Hc Hi Hentry.
  split; [ | repeat split].
  - apply (get_ship_params_absent _ d _ _ cls id); try assumption; try reflexivity.
    unfold catalog_entry in Hentry.
    destruct (d !! (cls +:+ "s")) as [v | ] eqn:E; [ | left; reflexivity].
    destruct (Hshape _ _ E) as [t ->]. right. exists t. split; [reflexivity | assumption].
  - intros H1 H2 H3. unfold default_params.
    apply String.eqb_neq in H1, H2, H3. rewrite H1, H2, H3. reflexivity.
Qed.

Lemma one_ship_catalog_shaped : catalog_shaped one_ship_catalog.
Proof.
  unfold catalog_shaped, one_ship_catalog. eexists. split; [reflexivity | ].
  intros k x H. apply lookup_insert_Some in H as [[_ <-] | [_ H]].
  - eexists. reflexivity.
  - rewrite lookup_empty in H. discriminate H.
Qed.

Lemma fallback_params_witness :
  catalog_shaped one_ship_catalog /\
  normalize (PStr "Destroyer") = Ok "destroyer"%string /\
  normalize (PStr "Fletcher") = Ok "fletcher"%string /\
  catalog_entry one_ship_catalog "destroyer" "fletcher" = None /\
  get_ship_params (with_catalog one_ship_catalog)
    (PStr "Destroyer") (PStr "Fletcher") = Ok (params 35.0 2.0 800).
Proof.
  split; [exact one_ship_catalog_shaped | ].
  do 3 (split; [reflexivity | ]).
  destruct (fallback_params one_ship_catalog (PStr "Destroyer") (PStr "Fletcher")
              "destroyer" "fletcher" one_ship_catalog_shaped
              eq_refl eq_refl eq_refl) as (H & _).
  exact H.
Defined.

(** C9: resolving a ship by (class, name) gives what resolving by the
    lower-cased pair gives, and a missing ([None]) or empty class or name
    is resolved as the literal ["unknown"]. *)
Theorem lookup_case_insensitive (self : AimCalculator)
    (ship_class ship_id : string) :
  get_ship_params self (PStr ship_class) (PStr ship_id) =
    get_ship_params self (PStr (lower ship_class)) (PStr (lower ship_id)) /\
  (forall x : pyval,
     get_ship_params self PNone x = get_ship_params self (PStr "unknown") x /\
     get_ship_params self (PStr "") x = get_ship_params self (PStr "unknown") x /\
     get_ship_params self x PNone = get_ship_params self x (PStr "unknown") /\
     get_ship_params self x (PStr "") = get_ship_params self x (PStr "unknown")).
Proof.
  split.
  - unfold get_ship_params. rewrite !normalize_lower. reflexivity.
  - intros x. repeat split; reflexivity.
Qed.

(** ** Construction *)

(** C8: [__init__] never raises.  When reading or parsing the data file
    raises, the failure is printed, the catalog is the empty dictionary,
    and every later lookup returns the default record of its class. *)
Theorem init_never_raises (fs : filesystem) (path : string) :
  exists calc out,
    init fs path = Ok (calc, out) /\
    forall e, fs path = Raise e ->
      ship_data calc = PDict ∅ /\
      out = ["Error loading ship data: " +:+ exn_message e] /\
      forall (ship_class ship_id : pyval) (cls id : string),
        normalize ship_class = Ok cls -> normalize ship_id = Ok id ->
        get_ship_params calc ship_class ship_id = Ok (default_params cls).
Proof.
  unfold init, load_ship_data, try_except.
  destruct (fs path) as [doc | e0]; cbn [mbind result_bind].
  - do 2 eexists. split; [reflexivity | ]. intros e He. discriminate He.
  - do 2 eexists. split; [reflexivity | ]. intros e He. injection He as <-.
    split; [reflexivity | split; [reflexivity | ]].
    intros ship_class ship_id cls id Hc Hi.
    apply (get_ship_params_absent _ ∅ _ _ cls id); try assumption; try reflexivity.
    left. apply lookup_empty.
Qed.

(** ** Lead *)

Lemma lead_distance_ok (doc : pyval) (td : gmap string pyval) (d s a v : R) :
  as_num (dict_get td "distance" (PNum 10)) = Ok d ->
  as_num (dict_get td "speed" (PNum 0)) = Ok s ->
  as_num (dict_get td "angle" (PNum 90)) = Ok a ->
  shell_velocity_for (with_catalog doc) td = Ok v ->
  d <> 0 -> v <> 0 ->
  calculate_lead_distance (with_catalog doc) td =
    Ok (lead_pixels d s a v,
        lead_pixels d s a v * sin (radians a),
        - lead_pixels d s a v * cos (radians a)).
Proof.
  intros Hd Hs Ha Hv Hd0 Hv0.
  unfold calculate_lead_distance, shell_velocity_for in *.
  destruct (get_ship_params _ _ _) as [sp | e]; [ | discriminate Hv].
  cbn [mbind result_bind] in Hv |- *.
  destruct (py_get sp _ _) as [raw | e]; [ | discriminate Hv].
  cbn [mbind result_bind] in Hv |- *.
  rewrite Hs, bind_ok, Ha, bind_ok, Hd, bind_ok, Hv, bind_ok.
  rewrite time_of_flight_ok, bind_ok by assumption.
  rewrite py_div_ok, bind_ok by assumption.
  reflexivity.
Qed.

Lemma dict_get_insert_ne (td : gmap string pyval) (k k' : string) (x dflt : pyval) :
  k <> k' -> dict_get (<[k := x]> td) k' dflt = dict_get td k' dflt.
Proof.
  intros Hne. unfold dict_get. rewrite lookup_insert_ne by assumption. reflexivity.
Qed.

Lemma dict_get_insert_eq (td : gmap string pyval) (k : string) (x dflt : pyval) :
  dict_get (<[k := x]> td) k dflt = x.
Proof.
  unfold dict_get. rewrite lookup_insert_eq. reflexivity.
Qed.

Lemma dict_get_some (td : gmap string pyval) (k : string) (x dflt : pyval) :
  td !! k = Some x -> dict_get td k dflt = x.
Proof.
  intros H. unfold dict_get. rewrite H. reflexivity.
Qed.

Lemma shell_velocity_for_angle (self : AimCalculator) (td : gmap string pyval)
    (x : pyval) :
  shell_velocity_for self (<["angle" := x]> td) = shell_velocity_for self td.
Proof.
  unfold shell_velocity_for. rewrite !dict_get_insert_ne by discriminate.
  reflexivity.
Qed.

Lemma radians_90 : radians 90 = PI / 2.
Proof. unfold radians. lra. Qed.

Lemma radians_45 : radians 45 = PI / 4.
Proof. unfold radians. lra. Qed.

Lemma radians_0 : radians 0 = 0.
Proof. unfold radians. lra. Qed.

Lemma time_of_flight_pos (d v : R) :
  0 < d -> 0 < v -> 0 < d * 1000 / v + 9.8 * (d * 1000) ^ 2 / (2 * v ^ 2).
Proof.
  intros Hd Hv.
  assert (H1 : 0 < d * 1000 / v) by (apply Rdiv_lt_0_compat; lra).
  assert (H2 : 0 < 9.8 * (d * 1000) ^ 2 / (2 * v ^ 2))
    by (apply Rdiv_lt_0_compat; nra).
  lra.
Qed.

Lemma lead_pixels_scale (d s a v : R) :
  lead_pixels d s a v = lead_pixels d s 90 v * sin (radians a).
Proof.
  unfold lead_pixels. rewrite radians_90, sin_PI2. lra.
Qed.

Lemma lead_pixels_90_nonneg (d s v : R) :
  0 < d -> 0 <= s -> 0 < v -> 0 <= lead_pixels d s 90 v.
Proof.
  intros Hd Hs Hv. unfold lead_pixels. rewrite radians_90, sin_PI2.
  pose proof (time_of_flight_pos d v Hd Hv) as Ht.
  assert (Hq : 0 < 10 / d) by (apply Rdiv_lt_0_compat; lra).
  apply Rmult_le_pos; [ | lra].
  apply Rmult_le_pos; [ | lra].
  apply Rmult_le_pos; [ | lra].
  lra.
Qed.

(** C2: for a target with distance [d > 0], speed [s >= 0] and bearing
    [a], and the shell velocity [v > 0] resolved for its ship, the lead is
    [leadPixels = (leadMeters / 1000) * 100 * (10 / d)] with
    [leadMeters = effectiveSpeed * timeOfFlight d v] and
    [effectiveSpeed = s * 0.5144 * sin (radians a)], and the offsets are
    [leadPixels * sin (radians a)] and [- leadPixels * cos (radians a)].
    Bearing 0 gives zero lead, and no bearing gives more lead, or more
    lateral offset, than bearing 90. *)
Theorem lead_formula (doc : pyval) (td : gmap string pyval) (d s a v : R) :
  td !! "distance" = Some (PNum d) -> 0 < d ->
  td !! "speed" = Some (PNum s) -> 0 <= s ->
  td !! "angle" = Some (PNum a) ->
  shell_velocity_for (with_catalog doc) td = Ok v -> 0 < v ->
  exists tof,
    calculate_time_of_flight (with_catalog doc) d v = Ok tof /\
    let effective_speed := s * 0.5144 * sin (radians a) in
    let lead_m := effective_speed * tof in
    let lead_px := (lead_m / 1000) * 100 * (10 / d) in
    calculate_lead_distance (with_catalog doc) td =
      Ok (lead_px, lead_px * sin (radians a), - lead_px * cos (radians a)) /\
    calculate_lead_distance (with_catalog doc) (<["angle" := PNum 0]> td) =
      Ok (0, 0, 0) /\
    exists lead90 x90 y90,
      calculate_lead_distance (with_catalog doc) (<["angle" := PNum 90]> td) =
        Ok (lead90, x90, y90) /\
      lead_px <= lead90 /\
      lead_px * sin (radians a) <= x90.
Proof.
  intros Hd Hd0 Hs Hs0 Ha Hv Hv0.
  eexists. split; [apply time_of_flight_ok; lra | ].
  cbv zeta. split; [ | split].
  - rewrite (lead_distance_ok doc td d s a v); try lra; try assumption.
    + unfold lead_pixels. do 2 f_equal; [f_equal | ]; lra.
    + rewrite (dict_get_some _ _ _ _ Hd). reflexivity.
    + rewrite (dict_get_some _ _ _ _ Hs). reflexivity.
    + rewrite (dict_get_some _ _ _ _ Ha). reflexivity.
  - rewrite (lead_distance_ok doc _ d s 0 v); try lra.
    + unfold lead_pixels. rewrite radians_0, sin_0.
      do 2 f_equal; [f_equal | ]; lra.
    + rewrite dict_get_insert_ne by discriminate.
      rewrite (dict_get_some _ _ _ _ Hd). reflexivity.
    + rewrite dict_get_insert_ne by discriminate.
      rewrite (dict_get_some _ _ _ _ Hs). reflexivity.
    + rewrite dict_get_insert_eq. reflexivity.
    + rewrite shell_velocity_for_angle. assumption.
  - do 3 eexists. split; [ | split].
    + apply (lead_distance_ok doc _ d s 90 v); try lra.
      * rewrite dict_get_insert_ne by discriminate.
        rewrite (dict_get_some _ _ _ _ Hd). reflexivity.
      * rewrite dict_get_insert_ne by discriminate.
        rewrite (dict_get_some _ _ _ _ Hs). reflexivity.
      * rewrite dict_get_insert_eq. reflexivity.
      * rewrite shell_velocity_for_angle. assumption.
    + pose proof (lead_pixels_90_nonneg d s v Hd0 Hs0 Hv0) as HK.
      pose proof (lead_pixels_scale d s a v) as Hsc.
      pose proof (SIN_bound (radians a)) as [_ Hsin].
      unfold lead_pixels in Hsc at 1.
      replace (s * 0.5144 * sin (radians a) *
               (d * 1000 / v + 9.8 * (d * 1000) ^ 2 / (2 * v ^ 2)) /
               1000 * 100 * (10 / d))
        with (lead_pixels d s 90 v * sin (radians a)) by lra.
      nra.
    + pose proof (lead_pixels_90_nonneg d s v Hd0 Hs0 Hv0) as HK.
      pose proof (lead_pixels_scale d s a v) as Hsc.
      pose proof (SIN_bound (radians a)) as [Hsin' Hsin].
      unfold lead_pixels in Hsc at 1.
      replace (s * 0.5144 * sin (radians a) *
               (d * 1000 / v + 9.8 * (d * 1000) ^ 2 / (2 * v ^ 2)) /
               1000 * 100 * (10 / d))
        with (lead_pixels d s 90 v * sin (radians a)) by lra.
      rewrite radians_90, sin_PI2.
      assert (Hsq : sin (radians a) * sin (radians a) <= 1) by nra.
      nra.
Qed.

Lemma lead_formula_witness :
  sample_target !! "distance" = Some (PNum 8.5) /\ 0 < 8.5 /\
  sample_target !! "speed" = Some (PNum 25) /\ 0 <= 25 /\
  sample_target !! "angle" = Some (PNum 45) /\
  shell_velocity_for (with_catalog (PDict ∅)) sample_target = Ok 800 /\
  0 < 800 /\
  exists tof,
    calculate_time_of_flight (with_catalog (PDict ∅)) 8.5 800 = Ok tof /\
    let effective_speed := 25 * 0.5144 * sin (radians 45) in
    let lead_m := effective_speed * tof in
    let lead_px := (lead_m / 1000) * 100 * (10 / 8.5) in
    calculate_lead_distance (with_catalog (PDict ∅)) sample_target =
      Ok (lead_px, lead_px * sin (radians 45), - lead_px * cos (radians 45)) /\
    calculate_lead_distance (with_catalog (PDict ∅))
      (<["angle" := PNum 0]> sample_target) = Ok (0, 0, 0) /\
    exists lead90 x90 y90,
      calculate_lead_distance (with_catalog (PDict ∅))
        (<["angle" := PNum 90]> sample_target) = Ok (lead90, x90, y90) /\
      lead_px <= lead90 /\
      lead_px * sin (radians 45) <= x90.
Proof.
  split; [reflexivity | split; [lra | ]].
  split; [reflexivity | split; [lra | ]].
  split; [reflexivity | split; [reflexivity | split; [lra | ]]].
  apply (lead_formula (PDict ∅) sample_target 8.5 25 45 800);
    try reflexivity; lra.
Defined.

(** ** The sample scenario *)

Lemma sin_45 : sin (radians 45) = 1 / sqrt 2.
Proof. rewrite radians_45. apply sin_PI4. Qed.

Lemma cos_45 : cos (radians 45) = 1 / sqrt 2.
Proof. rewrite radians_45. apply cos_PI4. Qed.

Lemma inv_sqrt2_bounds :
  0.7071067 < 1 / sqrt 2 < 0.7071068 /\ (1 / sqrt 2) * (1 / sqrt 2) = 1 / 2.
Proof.
  pose proof Rlt_sqrt2_0 as Hpos.
  assert (Hsq : sqrt 2 * sqrt 2 = 2) by (apply sqrt_sqrt; lra).
  assert (Hq : (1 / sqrt 2) * (1 / sqrt 2) = 1 / 2).
  { field_simplify_eq; [ | lra]. rewrite <- Hsq at 1. ring. }
  assert (Hqpos : 0 < 1 / sqrt 2) by (apply Rdiv_lt_0_compat; lra).
  split; [ | exact Hq].
  split; nra.
Qed.

Lemma sample_lead :
  calculate_lead_distance (with_catalog (PDict ∅)) sample_target =
    Ok (852.9796875 * (1 / sqrt 2), 426.48984375, - 426.48984375).
Proof.
  rewrite (lead_distance_ok (PDict ∅) sample_target 8.5 25 45 800);
    try reflexivity; try lra.
  destruct inv_sqrt2_bounds as [_ Hq].
  unfold lead_pixels. rewrite sin_45, cos_45.
  set (q := 1 / sqrt 2) in *.
  do 2 f_equal; [f_equal | ].
  - lra.
  - replace (25 * 0.5144 * q *
             (8.5 * 1000 / 800 + 9.8 * (8.5 * 1000) ^ 2 / (2 * 800 ^ 2)) /
             1000 * (100 * (10 / 8.5)) * q)
      with (852.9796875 * (q * q)) by lra.
    rewrite Hq. lra.
  - replace (- (25 * 0.5144 * q *
                (8.5 * 1000 / 800 + 9.8 * (8.5 * 1000) ^ 2 / (2 * 800 ^ 2)) /
                1000 * (100 * (10 / 8.5))) * q)
      with (- (852.9796875 * (q * q))) by lra.
    rewrite Hq. lra.
Qed.

(** C3, as stated, fails: on the sample target (8.5 km, 25 knots, bearing
    45, destroyer default velocity 800) each returned value is more than
    400 away from the value the scenario gives. *)
Lemma sample_scenario_off :
  exists tof lead ox oy,
    calculate_time_of_flight (with_catalog (PDict ∅)) 8.5 800 = Ok tof /\
    calculate_lead_distance (with_catalog (PDict ∅)) sample_target =
      Ok (lead, ox, oy) /\
    400 < Rabs (tof - 11.18) /\
    400 < Rabs (lead - 11.95) /\
    400 < Rabs (ox - 8.45) /\
    400 < Rabs (oy - (- 8.45)).
Proof.
  destruct inv_sqrt2_bounds as [[Hlo Hhi] _].
  do 4 eexists.
  split; [apply time_of_flight_ok; lra | ].
  split; [apply sample_lead | ].
  repeat split.
  - rewrite Rabs_right; lra.
  - rewrite Rabs_right; lra.
  - rewrite Rabs_right; lra.
  - rewrite Rabs_left; lra.
Qed.

(** C3, amended: on the sample target the time of flight is 563.7890625 s
    (10.625 + 553.1640625), the lead is about 5126.76 m, the scale is
    about 117.6 pixels per km, the lead is about 603.15 pixels and the
    offsets are 426.48984375 and -426.48984375. *)
Theorem sample_scenario :
  exists lead lead_m pixels_per_km,
    calculate_time_of_flight (with_catalog (PDict ∅)) 8.5 800 =
      Ok 563.7890625 /\
    calculate_lead_distance (with_catalog (PDict ∅)) sample_target =
      Ok (lead, 426.48984375, - 426.48984375) /\
    lead_m = 25 * 0.5144 * sin (radians 45) * 563.7890625 /\
    pixels_per_km = 100 * (10 / 8.5) /\
    lead = lead_m / 1000 * pixels_per_km /\
    Rabs (lead_m - 5126.76) < 0.01 /\
    Rabs (pixels_per_km - 117.6) < 0.1 /\
    Rabs (lead - 603.15) < 0.01.
Proof.
  destruct inv_sqrt2_bounds as [[Hlo Hhi] _].
  do 3 eexists.
  split; [rewrite time_of_flight_ok by lra; f_equal; lra | ].
  split; [apply sample_lead | ].
  split; [reflexivity | split; [reflexivity | ]].
  rewrite sin_45. set (q := 1 / sqrt 2) in *.
  split; [lra | ].
  split; [apply Rabs_def1; lra | ].
  split; apply Rabs_def1; lra.
Qed.

(** ** Aim point *)

Lemma py_int_nonneg (x : R) :
  0 <= x -> IZR (py_int x) <= x < IZR (py_int x) + 1.
Proof.
  intros Hx. unfold py_int. destruct (Rle_dec 0 x) as [_ | N]; [ | contradiction].
  apply Zfloor_bound.
Qed.

Lemma py_int_nonpos (x : R) :
  x <= 0 -> IZR (py_int x) - 1 < x <= IZR (py_int x).
Proof.
  intros Hx. unfold py_int. destruct (Rle_dec 0 x) as [P | _].
  - assert (E : x = 0) by lra. subst x.
    change 0 with (IZR 0). rewrite ZfloorZ. simpl. lra.
  - apply Zceil_bound.
Qed.

Lemma py_int_eq (z : Z) (x : R) :
  (0 <= z)%Z -> IZR z <= x < IZR z + 1 -> py_int x = z.
Proof.
  intros Hz Hx. unfold py_int.
  assert (H0 : 0 <= IZR z) by (apply IZR_le in Hz; exact Hz).
  destruct (Rle_dec 0 x) as [_ | N]; [ | lra].
  apply Zfloor_eq. exact Hx.
Qed.

Lemma clamp_bounds (x hi : Z) :
  (0 <= hi)%Z -> (0 <= clamp x 0 hi <= hi)%Z.
Proof. unfold clamp. lia. Qed.

Lemma aim_point_of_lead (self : AimCalculator) (c : Z * Z)
    (td : gmap string pyval) (sz : Z * Z) (lead ox oy : R) :
  calculate_lead_distance self td = Ok (lead, ox, oy) ->
  calculate_aim_point self c td sz =
    Ok (clamp (c.1 + py_int ox) 0 sz.1, clamp (c.2 + py_int oy) 0 sz.2).
Proof.
  intros H. unfold calculate_aim_point. rewrite H. reflexivity.
Qed.

Lemma broadside_lead :
  calculate_lead_distance (with_catalog (PDict ∅)) broadside_target =
    Ok (1000.66875, 1000.66875, 0).
Proof.
  rewrite (lead_distance_ok (PDict ∅) broadside_target 10 25 90 800);
    try reflexivity; try lra.
  unfold lead_pixels. rewrite radians_90, sin_PI2, cos_PI2.
  do 2 f_equal; [f_equal | ]; lra.
Qed.

Lemma broadside_aim :
  calculate_aim_point (with_catalog (PDict ∅)) (0, 0)%Z broadside_target
    (1920, 1080)%Z = Ok (1000, 0)%Z.
Proof.
  rewrite (aim_point_of_lead _ _ _ _ _ _ _ broadside_lead). cbn [fst snd].
  rewrite (py_int_eq 1000 1000.66875) by (try lia; lra).
  rewrite (py_int_eq 0 0) by (try lia; lra).
  reflexivity.
Qed.

(** C6, as stated, fails: for a broadside destroyer at 10 km and 25 knots
    the horizontal offset is 1000.66875; the aim point returned for the
    target center (0, 0) on a 1920 x 1080 screen has x = 1000, whereas
    every nearest integer of the offset gives 1001. *)
Lemma aim_point_not_rounded :
  exists lead ox oy ax ay,
    calculate_lead_distance (with_catalog (PDict ∅)) broadside_target =
      Ok (lead, ox, oy) /\
    calculate_aim_point (with_catalog (PDict ∅)) (0, 0)%Z broadside_target
      (1920, 1080)%Z = Ok (ax, ay) /\
    forall n : Z, is_nearest n ox -> ax <> clamp (0 + n) 0 1920.
Proof.
  do 5 eexists. split; [apply broadside_lead | ]. split; [apply broadside_aim | ].
  intros n Hn. unfold is_nearest in Hn.
  pose proof (Rle_abs (IZR n - 1000.66875)) as Hhi.
  pose proof (Rle_abs (- (IZR n - 1000.66875))) as Hlo.
  rewrite Rabs_Ropp in Hlo.
  assert (H1 : (1000 < n)%Z) by (apply lt_IZR; lra).
  assert (H2 : (n < 1002)%Z) by (apply lt_IZR; lra).
  unfold clamp. lia.
Qed.

(** C6, amended: when the lead computation returns offsets
    [(offsetX, offsetY)], the aim point is
    [clamp (x + int offsetX) 0 width, clamp (y + int offsetY) 0 height],
    where [int] truncates toward zero: it is the floor of a non-negative
    offset and the ceiling of a non-positive one. *)
Theorem aim_point_truncated (self : AimCalculator) (target_center : Z * Z)
    (td : gmap string pyval) (screen_size : Z * Z) (lead ox oy : R) :
  calculate_lead_distance self td = Ok (lead, ox, oy) ->
  calculate_aim_point self target_center td screen_size =
    Ok (clamp (target_center.1 + py_int ox) 0 screen_size.1,
        clamp (target_center.2 + py_int oy) 0 screen_size.2) /\
  (forall x : R,
     (0 <= x -> IZR (py_int x) <= x < IZR (py_int x) + 1) /\
     (x <= 0 -> IZR (py_int x) - 1 < x <= IZR (py_int x))).
Proof.
  intros H. split.
  - apply (aim_point_of_lead _ _ _ _ _ _ _ H).
  - intros x. split; [apply py_int_nonneg | apply py_int_nonpos].
Qed.

Lemma aim_point_truncated_witness :
  calculate_lead_distance (with_catalog (PDict ∅)) broadside_target =
    Ok (1000.66875, 1000.66875, 0) /\
  calculate_aim_point (with_catalog (PDict ∅)) (0, 0)%Z broadside_target
    (1920, 1080)%Z =
    Ok (clamp (0 + py_int 1000.66875) 0 1920, clamp (0 + py_int 0) 0 1080).
Proof.
  split; [exact broadside_lead | ].
  apply (aim_point_truncated (with_catalog (PDict ∅)) (0, 0)%Z broadside_target
           (1920, 1080)%Z 1000.66875 1000.66875 0 broadside_lead).
Defined.

(** C7: for a screen of width [w >= 0] and height [h >= 0] and a target
    whose lead can be computed (numeric speed and bearing, a non-zero
    numeric distance and a non-zero resolved shell velocity), the aim
    point is returned, lies in [0, w] x [0, h], and each coordinate that
    falls outside its range is replaced by the nearest bound. *)
Theorem aim_point_in_bounds (doc : pyval) (target_center : Z * Z)
    (td : gmap string pyval) (w h : Z) (d s a v : R) :
  (0 <= w)%Z -> (0 <= h)%Z ->
  as_num (dict_get td "distance" (PNum 10)) = Ok d -> d <> 0 ->
  as_num (dict_get td "speed" (PNum 0)) = Ok s ->
  as_num (dict_get td "angle" (PNum 90)) = Ok a ->
  shell_velocity_for (with_catalog doc) td = Ok v -> v <> 0 ->
  exists lead ox oy ax ay,
    calculate_lead_distance (with_catalog doc) td = Ok (lead, ox, oy) /\
    calculate_aim_point (with_catalog doc) target_center td (w, h) =
      Ok (ax, ay) /\
    (0 <= ax <= w)%Z /\ (0 <= ay <= h)%Z /\
    let raw_x := (target_center.1 + py_int ox)%Z in
    let raw_y := (target_center.2 + py_int oy)%Z in
    ((raw_x < 0)%Z -> ax = 0%Z) /\ ((w < raw_x)%Z -> ax = w) /\
    ((0 <= raw_x <= w)%Z -> ax = raw_x) /\
    ((raw_y < 0)%Z -> ay = 0%Z) /\ ((h < raw_y)%Z -> ay = h) /\
    ((0 <= raw_y <= h)%Z -> ay = raw_y).
Proof.
  intros Hw Hh Hd Hd0 Hs Ha Hv Hv0.
  pose proof (lead_distance_ok doc td d s a v Hd Hs Ha Hv Hd0 Hv0) as Hlead.
  do 5 eexists. split; [exact Hlead | ].
  split; [apply (aim_point_of_lead _ _ _ _ _ _ _ Hlead) | ].
  cbn [fst snd].
  split; [apply clamp_bounds; assumption | ].
  split; [apply clamp_bounds; assumption | ].
  cbv zeta. unfold clamp. repeat split; lia.
Qed.

Lemma aim_point_in_bounds_witness :
  (0 <= 800)%Z /\ (0 <= 600)%Z /\
  exists lead ox oy ax ay,
    calculate_lead_distance (with_catalog (PDict ∅)) broadside_target =
      Ok (lead, ox, oy) /\
    calculate_aim_point (with_catalog (PDict ∅)) (0, 0)%Z broadside_target
      (800, 600)%Z = Ok (ax, ay) /\
    (0 <= ax <= 800)%Z /\ (0 <= ay <= 600)%Z /\
    let raw_x := ((0, 0).1 + py_int ox)%Z in
    let raw_y := ((0, 0).2 + py_int oy)%Z in
    ((raw_x < 0)%Z -> ax = 0%Z) /\ ((800 < raw_x)%Z -> ax = 800%Z) /\
    ((0 <= raw_x <= 800)%Z -> ax = raw_x) /\
    ((raw_y < 0)%Z -> ay = 0%Z) /\ ((600 < raw_y)%Z -> ay = 600%Z) /\
    ((0 <= raw_y <= 600)%Z -> ay = raw_y).
Proof.
  split; [lia | split; [lia | ]].
  apply (aim_point_in_bounds (PDict ∅) (0, 0)%Z broadside_target 800 600
           10 25 90 800); try reflexivity; try lia; lra.
Defined.

(** ** Absent fields *)

Lemma dict_get_defaults (td : gmap string pyval) (k : string) (dflt : pyval) :
  target_defaults !! k = Some dflt ->
  dict_get (td ∪ target_defaults) k dflt = dict_get td k dflt.
Proof.
  intros Hk. unfold dict_get. rewrite lookup_union.
  destruct (td !! k) as [x | ]; simpl.
  - destruct (target_defaults !! k); reflexivity.
  - rewrite Hk. reflexivity.
Qed.

Lemma lead_distance_defaults (self : AimCalculator) (td : gmap string pyval) :
  calculate_lead_distance self td =
    calculate_lead_distance self (td ∪ target_defaults).
Proof.
  unfold calculate_lead_distance.
  rewrite !dict_get_defaults by reflexivity. reflexivity.
Qed.

Lemma as_num_optional (td : gmap string pyval) (k : string) (o : option R)
    (dflt : R) :
  td !! k = PNum <$> o ->
  as_num (dict_get td k (PNum dflt)) = Ok (default dflt o).
Proof.
  intros H. unfold dict_get. rewrite H. destruct o; reflexivity.
Qed.

(** C10: a target dictionary may lack any of its keys.  With [d] the
    distance, or 10 when the key is absent, [s] the speed, or 0, [a] the
    angle, or 90, and [v] the shell velocity resolved for the ship type,
    or ["cruiser"], and the ship name, or ["unknown"], the lead is
    returned and is the lead computed from these values:
    [leadPixels = (s * 0.5144 * sin a) * tof / 1000 * (100 * (10 / d))]
    with [tof = d' / v + 9.8 * d'^2 / (2 * v^2)], [d' = 1000 * d].  It is
    what the same call returns on the dictionary completed with the five
    default values. *)
Theorem lead_with_absent_fields (doc : pyval) (td : gmap string pyval)
    (distance speed angle : option R) (v : R) :
  td !! "distance" = PNum <$> distance ->
  td !! "speed" = PNum <$> speed ->
  td !! "angle" = PNum <$> angle ->
  let d := default 10 distance in
  let s := default 0 speed in
  let a := default 90 angle in
  d <> 0 ->
  resolve_shell_velocity (with_catalog doc)
    (default (PStr "cruiser") (td !! "ship_type"))
    (default (PStr "unknown") (td !! "ship_name")) = Ok v ->
  v <> 0 ->
  let tof := d * 1000 / v + 9.8 * (d * 1000) ^ 2 / (2 * v ^ 2) in
  let lead_px := (s * 0.5144 * sin (radians a)) * tof / 1000 * (100 * (10 / d)) in
  calculate_lead_distance (with_catalog doc) td =
    Ok (lead_px, lead_px * sin (radians a), - lead_px * cos (radians a)) /\
  calculate_lead_distance (with_catalog doc) td =
    calculate_lead_distance (with_catalog doc) (td ∪ target_defaults) /\
  (forall k : string,
     (td ∪ target_defaults) !! k =
       match td !! k with
       | Some x => Some x
       | None => target_defaults !! k
       end) /\
  target_defaults !! "distance" = Some (PNum 10) /\
  target_defaults !! "speed" = Some (PNum 0) /\
  target_defaults !! "angle" = Some (PNum 90) /\
  target_defaults !! "ship_type" = Some (PStr "cruiser") /\
  target_defaults !! "ship_name" = Some (PStr "unknown").
Proof.
  intros Hd Hs Ha d s a Hd0 Hv Hv0 tof lead_px.
  split; [ | split; [apply lead_distance_defaults | split]].
  - rewrite (lead_distance_ok doc td d s a v); try assumption.
    + reflexivity.
    + apply as_num_optional. exact Hd.
    + apply as_num_optional. exact Hs.
    + apply as_num_optional. exact Ha.
  - intros k. rewrite lookup_union.
    destruct (td !! k) as [x | ]; simpl; destruct (target_defaults !! k); reflexivity.
  - repeat split.
Qed.

Lemma lead_with_absent_fields_witness :
  exists lead,
    calculate_lead_distance (with_catalog (PDict ∅)) speed_only_target =
      Ok (lead, lead * sin (radians 90), - lead * cos (radians 90)) /\
    lead = 25 * 0.5144 * sin (radians 90)
           * (10 * 1000 / 850 + 9.8 * (10 * 1000) ^ 2 / (2 * 850 ^ 2))
           / 1000 * (100 * (10 / 10)) /\
    Rabs (lead - 887.2955) < 0.0001 /\
    calculate_lead_distance (with_catalog (PDict ∅)) speed_only_target =
      calculate_lead_distance (with_catalog (PDict ∅))
        (speed_only_target ∪ target_defaults).
Proof.
  destruct (lead_with_absent_fields (PDict ∅) speed_only_target
              None (Some 25) None 850) as (Hlead & Heq & _);
    try reflexivity; try (unfold default; lra).
  exists (25 * 0.5144 * sin (radians 90)
          * (10 * 1000 / 850 + 9.8 * (10 * 1000) ^ 2 / (2 * 850 ^ 2))
          / 1000 * (100 * (10 / 10))).
  split; [exact Hlead | ]. split; [reflexivity | ]. split; [ | exact Heq].
  rewrite radians_90, sin_PI2. apply Rabs_def1; lra.
Defined.

(** ** Boundary cases *)

(** A target at distance zero has a time of flight of zero. *)
Lemma time_of_flight_zero_distance (doc : pyval) (v : R) :
  0 < v -> calculate_time_of_flight (with_catalog doc) 0 v = Ok 0.
Proof.
  intros Hv. rewrite time_of_flight_ok by lra. f_equal.
  unfold Rdiv. ring.
Qed.

(** A shell velocity of zero is a division by zero. *)
Lemma time_of_flight_zero_velocity (self : AimCalculator) (d : R) :
  calculate_time_of_flight self d 0 = Raise ZeroDivisionError.
Proof.
  unfold calculate_time_of_flight. rewrite py_div_zero. reflexivity.
Qed.

(** A distance of zero is a division by zero in the pixel scale. *)
Lemma lead_zero_distance (doc : pyval) (td : gmap string pyval) (s a v : R) :
  td !! "distance" = Some (PNum 0) ->
  as_num (dict_get td "speed" (PNum 0)) = Ok s ->
  as_num (dict_get td "angle" (PNum 90)) = Ok a ->
  shell_velocity_for (with_catalog doc) td = Ok v -> v <> 0 ->
  calculate_lead_distance (with_catalog doc) td = Raise ZeroDivisionError.
Proof.
  intros Hd Hs Ha Hv Hv0.
  unfold calculate_lead_distance, shell_velocity_for in *.
  destruct (get_ship_params _ _ _) as [sp | e]; [ | discriminate Hv].
  cbn [mbind result_bind] in Hv |- *.
  destruct (py_get sp _ _) as [raw | e]; [ | discriminate Hv].
  cbn [mbind result_bind] in Hv |- *.
  rewrite Hs, bind_ok, Ha, bind_ok, (dict_get_some _ _ _ _ Hd).
  cbn [as_num]. rewrite bind_ok, Hv, bind_ok.
  rewrite time_of_flight_ok, bind_ok by assumption.
  rewrite py_div_zero. reflexivity.
Qed.

(** A key that is present with the value [None] is not defaulted. *)
Lemma lead_none_distance (td : gmap string pyval) (s a : R) :
  td !! "distance" = Some PNone ->
  td !! "speed" = Some (PNum s) ->
  td !! "angle" = Some (PNum a) ->
  td !! "ship_type" = None -> td !! "ship_name" = None ->
  calculate_lead_distance (with_catalog (PDict ∅)) td = Raise TypeError.
Proof.
  intros Hd Hs Ha Ht Hn. unfold calculate_lead_distance, dict_get.
  rewrite Hd, Hs, Ha, Ht, Hn. reflexivity.
Qed.

(** A document that is not a dictionary loads, and fails at lookup. *)
Lemma lookup_in_list_document (ship_class ship_id : string) :
  get_ship_params (with_catalog (PList [])) (PStr ship_class) (PStr ship_id) =
    Raise AttributeError.
Proof.
  unfold get_ship_params. rewrite !normalize_str. reflexivity.
Qed.

(** Bearing 180 gives zero lead as bearing 0 does. *)
Lemma lead_pixels_180 (d s v : R) : lead_pixels d s 180 v = 0.
Proof.
  unfold lead_pixels.
  replace (radians 180) with PI by (unfold radians; lra).
  rewrite sin_PI. unfold Rdiv. ring.
Qed.

(** * Further properties of the calculator *)

(** ** Catalog entries *)

Lemma lower_app (s1 s2 : string) : lower (s1 +:+ s2) = lower s1 +:+ lower s2.
Proof.
  induction s1 as [ | c rest IH]; simpl.
  - reflexivity.
  - rewrite IH. reflexivity.
Qed.

Lemma normalize_lowered (x : pyval) (n : string) :
  normalize x = Ok n -> lower n = n.
Proof.
  unfold normalize. destruct (truthy x).
  - destruct x; try discriminate. intros H. injection H as <-. apply lower_idem.
  - intros H. injection H as <-. reflexivity.
Qed.

Lemma normalize_nonempty (s : string) :
  s <> ""%string -> normalize (PStr s) = Ok (lower s).
Proof.
  intros Hs. rewrite normalize_str.
  destruct (String.eqb_spec s ""); [contradiction | reflexivity].
Qed.

Lemma get_ship_params_entry (self : AimCalculator) (d t : gmap string pyval)
    (ship_class ship_id : string) (rec : pyval) :
  ship_data self = PDict d ->
  ship_class <> ""%string -> ship_id <> ""%string ->
  d !! (lower ship_class +:+ "s") = Some (PDict t) ->
  t !! lower ship_id = Some rec ->
  get_ship_params self (PStr ship_class) (PStr ship_id) =
    if truthy rec then Ok rec else Ok (default_params (lower ship_class)).
Proof.
  intros Hd Hc Hi Hcls Hrec. unfold get_ship_params.
  rewrite (normalize_nonempty _ Hc), bind_ok, (normalize_nonempty _ Hi), bind_ok.
  rewrite Hd, py_get_dict, bind_ok. unfold dict_get at 1. rewrite Hcls.
  rewrite py_get_dict, bind_ok. unfold dict_get. rewrite Hrec.
  destruct (truthy rec); reflexivity.
Qed.

(** X1: a ship whose lower-cased class (with the plural "s") and
    lower-cased name lead to a non-empty record gets that record back
    unchanged, however the caller capitalises the two names. *)
Theorem catalog_hit (self : AimCalculator) (d t : gmap string pyval)
    (ship_class ship_id : string) (rec : pyval) :
  ship_data self = PDict d ->
  ship_class <> ""%string -> ship_id <> ""%string ->
  d !! (lower ship_class +:+ "s") = Some (PDict t) ->
  t !! lower ship_id = Some rec ->
  truthy rec = true ->
  get_ship_params self (PStr ship_class) (PStr ship_id) = Ok rec.
Proof.
  intros Hd Hc Hi Hcls Hrec Htr.
  rewrite (get_ship_params_entry self d t _ _ rec); try assumption.
  rewrite Htr. reflexivity.
Qed.

Lemma truthy_params (a b c : R) : truthy (params a b c) = true.
Proof.
  unfold params, truthy. apply negb_true_iff, bool_decide_eq_false.
  apply insert_non_empty.
Qed.

Lemma catalog_hit_witness :
  get_ship_params (with_catalog one_ship_catalog)
    (PStr "Destroyer") (PStr "SHIMAKAZE") = Ok (params 39.0 2.2 915).
Proof.
  apply (catalog_hit (with_catalog one_ship_catalog)
           (<["destroyers" := PDict (<["shimakaze" := params 39.0 2.2 915]> ∅)]> ∅)
           (<["shimakaze" := params 39.0 2.2 915]> ∅)
           "Destroyer" "SHIMAKAZE" (params 39.0 2.2 915));
    try reflexivity; discriminate.
Defined.

(** X2: a catalog entry that is present but empty (an empty record,
    [null], zero, an empty string or list) is treated as missing: the
    class default is returned in its place. *)
Theorem empty_entry_falls_back (self : AimCalculator) (d t : gmap string pyval)
    (ship_class ship_id : string) (rec : pyval) :
  ship_data self = PDict d ->
  ship_class <> ""%string -> ship_id <> ""%string ->
  d !! (lower ship_class +:+ "s") = Some (PDict t) ->
  t !! lower ship_id = Some rec ->
  truthy rec = false ->
  get_ship_params self (PStr ship_class) (PStr ship_id) =
    Ok (default_params (lower ship_class)).
Proof.
  intros Hd Hc Hi Hcls Hrec Htr.
  rewrite (get_ship_params_entry self d t _ _ rec); try assumption.
  rewrite Htr. reflexivity.
Qed.

Lemma empty_entry_falls_back_witness :
  get_ship_params
    (with_catalog (PDict (<["cruisers" := PDict (<["zao" := PDict ∅]> ∅)]> ∅)))
    (PStr "Cruiser") (PStr "Zao") = Ok (params 32.0 1.8 850).
Proof.
  apply (empty_entry_falls_back
           (with_catalog (PDict (<["cruisers" := PDict (<["zao" := PDict ∅]> ∅)]> ∅)))
           (<["cruisers" := PDict (<["zao" := PDict ∅]> ∅)]> ∅)
           (<["zao" := PDict ∅]> ∅)
           "Cruiser" "Zao" (PDict ∅));
    try reflexivity; discriminate.
Defined.

(** X3: the catalog's own keys are never lower-cased.  A record stored
    under a ship name that contains an upper-case letter, or a class
    stored under a key that contains one, is invisible: adding it changes
    the outcome of no lookup. *)
Theorem mixed_case_keys_unreachable (d t : gmap string pyval)
    (class_key name_key : string) (rec entry x y : pyval) :
  (name_key <> lower name_key ->
   get_ship_params
     (with_catalog (PDict (<[class_key := PDict (<[name_key := rec]> t)]> d))) x y =
   get_ship_params (with_catalog (PDict (<[class_key := PDict t]> d))) x y) /\
  (class_key <> lower class_key ->
   get_ship_params (with_catalog (PDict (<[class_key := entry]> d))) x y =
   get_ship_params (with_catalog (PDict d)) x y).
Proof.
  split.
  - intros Hk. unfold get_ship_params.
    destruct (normalize x) as [c | e] eqn:Ex; [ | reflexivity].
    destruct (normalize y) as [n | e] eqn:Ey; [ | reflexivity].
    rewrite !bind_ok. cbn [ship_data with_catalog]. rewrite !py_get_dict, !bind_ok.
    unfold dict_get.
    destruct (decide (class_key = c +:+ "s")) as [-> | Hne].
    + rewrite !lookup_insert_eq, !py_get_dict, !bind_ok. unfold dict_get.
      rewrite lookup_insert_ne; [reflexivity | ].
      intros ->. apply Hk. symmetry. apply (normalize_lowered _ _ Ey).
    + rewrite !lookup_insert_ne by assumption. reflexivity.
  - intros Hk. unfold get_ship_params.
    destruct (normalize x) as [c | e] eqn:Ex; [ | reflexivity].
    destruct (normalize y) as [n | e] eqn:Ey; [ | reflexivity].
    rewrite !bind_ok. cbn [ship_data with_catalog]. rewrite !py_get_dict, !bind_ok.
    unfold dict_get.
    rewrite lookup_insert_ne; [reflexivity | ].
    intros ->. apply Hk. rewrite lower_app, (normalize_lowered _ _ Ex). reflexivity.
Qed.

(** ** Records without a shell velocity *)

(** X4: when the record resolved for the target's ship has no
    ["shell_velocity"] key, the lead is computed with the calculator's
    default shell velocity of 800 m/s. *)
Theorem missing_shell_velocity_defaults (doc : pyval) (td r : gmap string pyval)
    (d s a : R) :
  get_ship_params (with_catalog doc)
    (dict_get td "ship_type" (PStr "cruiser"))
    (dict_get td "ship_name" (PStr "unknown")) = Ok (PDict r) ->
  r !! "shell_velocity" = None ->
  as_num (dict_get td "distance" (PNum 10)) = Ok d -> d <> 0 ->
  as_num (dict_get td "speed" (PNum 0)) = Ok s ->
  as_num (dict_get td "angle" (PNum 90)) = Ok a ->
  calculate_lead_distance (with_catalog doc) td =
    Ok (lead_pixels d s a 800,
        lead_pixels d s a 800 * sin (radians a),
        - lead_pixels d s a 800 * cos (radians a)).
Proof.
  intros Hp Hr Hd Hd0 Hs Ha.
  apply lead_distance_ok; try assumption; try lra.
  unfold shell_velocity_for. rewrite Hp, bind_ok, py_get_dict, bind_ok.
  unfold dict_get. rewrite Hr. reflexivity.
Qed.

Lemma missing_shell_velocity_defaults_witness :
  calculate_lead_distance
    (with_catalog (PDict (<["cruisers" :=
       PDict (<["zao" := PDict (<["max_speed" := PNum 34.5]> ∅)]> ∅)]> ∅)))
    (<["ship_type" := PStr "cruiser"]> (<["ship_name" := PStr "Zao"]> ∅)) =
    Ok (lead_pixels 10 0 90 800,
        lead_pixels 10 0 90 800 * sin (radians 90),
        - lead_pixels 10 0 90 800 * cos (radians 90)).
Proof.
  apply (missing_shell_velocity_defaults _ _ (<["max_speed" := PNum 34.5]> ∅));
    try reflexivity; lra.
Defined.

(** ** Time of flight and drop at the edges *)

Lemma tof_value_square (d v : R) :
  v <> 0 ->
  d * 1000 / v + 9.8 * (d * 1000) ^ 2 / (2 * v ^ 2) =
  d * 1000 * / v + 4.9 * ((d * 1000 * / v) * (d * 1000 * / v)).
Proof.
  intros Hv. replace 9.8 with (98 / 10) by lra. replace 4.9 with (49 / 10) by lra.
  field. assumption.
Qed.

Lemma tof_value_monotone (d1 d2 v1 v2 : R) :
  0 <= d1 -> d1 < d2 -> 0 < v1 -> v1 <= v2 ->
  d1 * 1000 / v2 + 9.8 * (d1 * 1000) ^ 2 / (2 * v2 ^ 2) <
  d2 * 1000 / v1 + 9.8 * (d2 * 1000) ^ 2 / (2 * v1 ^ 2).
Proof.
  intros Hd1 Hd Hv1 Hv.
  assert (Hi : / v2 <= / v1) by (apply Rinv_le_contravar; lra).
  assert (Hi2 : 0 < / v2) by (apply Rinv_0_lt_compat; lra).
  assert (Hi1 : 0 < / v1) by (apply Rinv_0_lt_compat; lra).
  rewrite !tof_value_square by lra.
  assert (Hx1 : 0 <= d1 * 1000 * / v2) by (apply Rmult_le_pos; lra).
  assert (Hlt : d1 * 1000 * / v2 < d2 * 1000 * / v1).
  { apply Rle_lt_trans with (d1 * 1000 * / v1).
    - apply Rmult_le_compat_l; lra.
    - apply Rmult_lt_compat_r; lra. }
  nra.
Qed.

(** X5: the time of flight grows with the distance and shrinks with the
    shell velocity: a target that is farther away, fired at with a shell
    that is no faster, always has a strictly longer time of flight; at
    distance zero the time of flight is zero. *)
Theorem time_of_flight_monotone (doc : pyval) (d1 d2 v1 v2 : R) :
  0 <= d1 -> d1 < d2 -> 0 < v1 -> v1 <= v2 ->
  exists t1 t2,
    calculate_time_of_flight (with_catalog doc) d1 v2 = Ok t1 /\
    calculate_time_of_flight (with_catalog doc) d2 v1 = Ok t2 /\
    t1 < t2 /\
    calculate_time_of_flight (with_catalog doc) 0 v1 = Ok 0.
Proof.
  intros Hd1 Hd Hv1 Hv. do 2 eexists.
  split; [apply time_of_flight_ok; lra | ].
  split; [apply time_of_flight_ok; lra | ].
  split; [apply tof_value_monotone; assumption | ].
  apply time_of_flight_zero_distance. assumption.
Qed.

Lemma time_of_flight_monotone_witness :
  exists t1 t2,
    calculate_time_of_flight (with_catalog (PDict ∅)) 5 850 = Ok t1 /\
    calculate_time_of_flight (with_catalog (PDict ∅)) 10 800 = Ok t2 /\
    t1 < t2 /\
    calculate_time_of_flight (with_catalog (PDict ∅)) 0 800 = Ok 0.
Proof.
  apply (time_of_flight_monotone (PDict ∅) 5 10 800 850); lra.
Defined.

(** X6: a shell velocity of zero makes the time of flight and the shell
    drop raise [ZeroDivisionError] at every distance, and a distance of
    zero makes the shell drop raise it at every non-zero velocity, even
    though the time of flight itself is then defined. *)
Theorem zero_inputs_raise (doc : pyval) (d v : R) :
  calculate_time_of_flight (with_catalog doc) d 0 = Raise ZeroDivisionError /\
  calculate_shell_drop (with_catalog doc) d 0 = Raise ZeroDivisionError /\
  (v <> 0 ->
   calculate_time_of_flight (with_catalog doc) 0 v = Ok 0 /\
   calculate_shell_drop (with_catalog doc) 0 v = Raise ZeroDivisionError).
Proof.
  split; [apply time_of_flight_zero_velocity | ].
  split.
  - unfold calculate_shell_drop. rewrite time_of_flight_zero_velocity. reflexivity.
  - intros Hv.
    assert (Ht : calculate_time_of_flight (with_catalog doc) 0 v = Ok 0).
    { rewrite time_of_flight_ok by assumption. f_equal. unfold Rdiv. ring. }
    split; [exact Ht | ].
    unfold calculate_shell_drop. rewrite Ht, bind_ok, py_div_zero. reflexivity.
Qed.

(** X7: a target whose distance reads zero makes the lead computation
    raise [ZeroDivisionError], and with it the aim point computation. *)
Theorem zero_distance_raises (doc : pyval) (c sz : Z * Z)
    (td : gmap string pyval) (s a v : R) :
  td !! "distance" = Some (PNum 0) ->
  as_num (dict_get td "speed" (PNum 0)) = Ok s ->
  as_num (dict_get td "angle" (PNum 90)) = Ok a ->
  shell_velocity_for (with_catalog doc) td = Ok v -> v <> 0 ->
  calculate_lead_distance (with_catalog doc) td = Raise ZeroDivisionError /\
  calculate_aim_point (with_catalog doc) c td sz = Raise ZeroDivisionError.
Proof.
  intros Hd Hs Ha Hv Hv0.
  pose proof (lead_zero_distance doc td s a v Hd Hs Ha Hv Hv0) as H.
  split; [exact H | ]. unfold calculate_aim_point. rewrite H. reflexivity.
Qed.

Lemma zero_distance_raises_witness :
  calculate_lead_distance (with_catalog (PDict ∅))
    (<["distance" := PNum 0]> ∅) = Raise ZeroDivisionError /\
  calculate_aim_point (with_catalog (PDict ∅)) (960, 540)%Z
    (<["distance" := PNum 0]> ∅) (1920, 1080)%Z = Raise ZeroDivisionError.
Proof.
  apply (zero_distance_raises (PDict ∅) (960, 540)%Z (1920, 1080)%Z
           (<["distance" := PNum 0]> ∅) 0 90 850); try reflexivity; lra.
Defined.

(** ** Direction and size of the lead *)

Lemma py_int_IZR (z : Z) : py_int (IZR z) = z.
Proof.
  unfold py_int. destruct (Rle_dec 0 (IZR z)) as [_ | _].
  - apply ZfloorZ.
  - apply Zceil_eq. lra.
Qed.

Lemma py_int_ge_0 (x : R) : 0 <= x -> (0 <= py_int x)%Z.
Proof.
  intros Hx. destruct (py_int_nonneg x Hx) as [_ Hhi].
  assert (H : (-1 < py_int x)%Z) by (apply lt_IZR; lra). lia.
Qed.

(** X8: for a target with distance [d > 0], speed [s >= 0] and a resolved
    shell velocity [v > 0], the horizontal offset is never negative,
    whatever the bearing, so the aim point of a target that is on the
    screen is never to the left of the target. *)
Theorem aim_never_left_of_target (doc : pyval) (c : Z * Z)
    (td : gmap string pyval) (w h : Z) (d s a v : R) :
  as_num (dict_get td "distance" (PNum 10)) = Ok d -> 0 < d ->
  as_num (dict_get td "speed" (PNum 0)) = Ok s -> 0 <= s ->
  as_num (dict_get td "angle" (PNum 90)) = Ok a ->
  shell_velocity_for (with_catalog doc) td = Ok v -> 0 < v ->
  (0 <= c.1 <= w)%Z ->
  exists lead ox oy ax ay,
    calculate_lead_distance (with_catalog doc) td = Ok (lead, ox, oy) /\
    0 <= ox /\
    calculate_aim_point (with_catalog doc) c td (w, h) = Ok (ax, ay) /\
    (c.1 <= ax)%Z.
Proof.
  intros Hd Hd0 Hs Hs0 Ha Hv Hv0 Hc.
  assert (Hlead := lead_distance_ok doc td d s a v Hd Hs Ha Hv).
  rewrite Hlead by lra.
  assert (Hox : 0 <= lead_pixels d s a v * sin (radians a)).
  { rewrite lead_pixels_scale.
    pose proof (lead_pixels_90_nonneg d s v Hd0 Hs0 Hv0) as HK.
    replace (lead_pixels d s 90 v * sin (radians a) * sin (radians a))
      with (lead_pixels d s 90 v * (sin (radians a) * sin (radians a))) by ring.
    apply Rmult_le_pos; [exact HK | nra]. }
  do 5 eexists. split; [reflexivity | ]. split; [exact Hox | ].
  split.
  - apply (aim_point_of_lead _ _ _ _ _ _ _ (Hlead ltac:(lra) ltac:(lra))).
  - cbn [fst snd]. pose proof (py_int_ge_0 _ Hox). unfold clamp. lia.
Qed.

Lemma aim_never_left_of_target_witness :
  exists lead ox oy ax ay,
    calculate_lead_distance (with_catalog (PDict ∅)) sample_target =
      Ok (lead, ox, oy) /\
    0 <= ox /\
    calculate_aim_point (with_catalog (PDict ∅)) (960, 540)%Z sample_target
      (1920, 1080)%Z = Ok (ax, ay) /\
    ((960, 540).1 <= ax)%Z.
Proof.
  apply (aim_never_left_of_target (PDict ∅) (960, 540)%Z sample_target
           1920 1080 8.5 25 45 800); try reflexivity; try lra.
  cbn [fst]. lia.
Defined.

(** X9: for a target that does not move (speed zero, or no speed key)
    the lead is [(0, 0, 0)] and the aim point is the target center
    clamped to the screen, hence the target center itself when that is
    on the screen. *)
Theorem stationary_target_aims_at_center (doc : pyval) (c : Z * Z)
    (td : gmap string pyval) (w h : Z) (d a v : R) :
  as_num (dict_get td "distance" (PNum 10)) = Ok d -> d <> 0 ->
  as_num (dict_get td "speed" (PNum 0)) = Ok 0 ->
  as_num (dict_get td "angle" (PNum 90)) = Ok a ->
  shell_velocity_for (with_catalog doc) td = Ok v -> v <> 0 ->
  calculate_lead_distance (with_catalog doc) td = Ok (0, 0, 0) /\
  calculate_aim_point (with_catalog doc) c td (w, h) =
    Ok (clamp c.1 0 w, clamp c.2 0 h) /\
  ((0 <= c.1 <= w)%Z -> (0 <= c.2 <= h)%Z ->
   calculate_aim_point (with_catalog doc) c td (w, h) = Ok c).
Proof.
  intros Hd Hd0 Hs Ha Hv Hv0.
  assert (Hlead : calculate_lead_distance (with_catalog doc) td = Ok (0, 0, 0)).
  { rewrite (lead_distance_ok doc td d 0 a v) by assumption.
    assert (Hz : lead_pixels d 0 a v = 0) by (unfold lead_pixels, Rdiv; ring).
    rewrite Hz. do 2 f_equal; [f_equal | ]; ring. }
  assert (Haim : calculate_aim_point (with_catalog doc) c td (w, h) =
                 Ok (clamp c.1 0 w, clamp c.2 0 h)).
  { rewrite (aim_point_of_lead _ _ _ _ _ _ _ Hlead). cbn [fst snd].
    rewrite (py_int_IZR 0), !Z.add_0_r. reflexivity. }
  split; [exact Hlead | ]. split; [exact Haim | ].
  intros Hx Hy. rewrite Haim. destruct c as [cx cy]. cbn [fst snd] in *.
  unfold clamp. do 2 f_equal; lia.
Qed.

Lemma stationary_target_aims_at_center_witness :
  calculate_lead_distance (with_catalog (PDict ∅)) ∅ = Ok (0, 0, 0) /\
  calculate_aim_point (with_catalog (PDict ∅)) (2000, 540)%Z ∅ (1920, 1080)%Z =
    Ok (clamp 2000 0 1920, clamp 540 0 1080).
Proof.
  destruct (stationary_target_aims_at_center (PDict ∅) (2000, 540)%Z ∅
              1920 1080 10 90 850) as (H1 & H2 & _);
    try reflexivity; try lra.
  split; [exact H1 | exact H2].
Defined.

Lemma radians_mirror (a : R) : radians (180 - a) = PI - radians a.
Proof. unfold radians. lra. Qed.

(** X10: mirroring the bearing about the broadside direction, from [a]
    to [180 - a], keeps the lead and the horizontal offset and negates
    the vertical offset; in particular bearing 180 gives lead zero. *)
Theorem mirrored_bearing (doc : pyval) (td : gmap string pyval) (d s a v : R) :
  as_num (dict_get td "distance" (PNum 10)) = Ok d -> d <> 0 ->
  as_num (dict_get td "speed" (PNum 0)) = Ok s ->
  td !! "angle" = Some (PNum a) ->
  shell_velocity_for (with_catalog doc) td = Ok v -> v <> 0 ->
  exists lead ox oy,
    calculate_lead_distance (with_catalog doc) td = Ok (lead, ox, oy) /\
    calculate_lead_distance (with_catalog doc)
      (<["angle" := PNum (180 - a)]> td) = Ok (lead, ox, - oy) /\
    calculate_lead_distance (with_catalog doc)
      (<["angle" := PNum 180]> td) = Ok (0, 0, 0).
Proof.
  intros Hd Hd0 Hs Ha Hv Hv0.
  assert (Ha' : as_num (dict_get td "angle" (PNum 90)) = Ok a)
    by (rewrite (dict_get_some _ _ _ _ Ha); reflexivity).
  assert (Hm : forall b, calculate_lead_distance (with_catalog doc)
                 (<["angle" := PNum b]> td) =
               Ok (lead_pixels d s b v, lead_pixels d s b v * sin (radians b),
                   - lead_pixels d s b v * cos (radians b))).
  { intros b. apply lead_distance_ok; try assumption.
    - rewrite dict_get_insert_ne by discriminate. exact Hd.
    - rewrite dict_get_insert_ne by discriminate. exact Hs.
    - rewrite dict_get_insert_eq. reflexivity.
    - rewrite shell_velocity_for_angle. exact Hv. }
  do 3 eexists. split; [apply (lead_distance_ok doc td d s a v); assumption | ].
  split.
  - rewrite Hm.
    assert (HL : lead_pixels d s (180 - a) v = lead_pixels d s a v).
    { unfold lead_pixels. rewrite radians_mirror, sin_PI_x. reflexivity. }
    rewrite HL, radians_mirror, sin_PI_x, Rtrigo_facts.cos_pi_minus.
    do 2 f_equal. ring.
  - rewrite Hm, lead_pixels_180. do 2 f_equal; [f_equal | ]; ring.
Qed.

Lemma mirrored_bearing_witness :
  exists lead ox oy,
    calculate_lead_distance (with_catalog (PDict ∅)) sample_target =
      Ok (lead, ox, oy) /\
    calculate_lead_distance (with_catalog (PDict ∅))
      (<["angle" := PNum (180 - 45)]> sample_target) = Ok (lead, ox, - oy) /\
    calculate_lead_distance (with_catalog (PDict ∅))
      (<["angle" := PNum 180]> sample_target) = Ok (0, 0, 0).
Proof.
  apply (mirrored_bearing (PDict ∅) sample_target 8.5 25 45 800);
    try reflexivity; lra.
Defined.

(** ** Documents that are not objects *)

(** X11: a data file that parses to something other than a JSON object
    (a list, a number, a string) is accepted by the constructor without
    a message; every later lookup then raises [AttributeError], and so
    does the lead computation for a target that names no ship. *)
Theorem non_object_document (fs : filesystem) (path : string) (doc : pyval) :
  fs path = Ok doc ->
  (forall d, doc <> PDict d) ->
  exists calc,
    init fs path = Ok (calc, []) /\
    (forall (x y : pyval) (cls id : string),
       normalize x = Ok cls -> normalize y = Ok id ->
       get_ship_params calc x y = Raise AttributeError) /\
    (forall td : gmap string pyval,
       td !! "ship_type" = None -> td !! "ship_name" = None ->
       calculate_lead_distance calc td = Raise AttributeError).
Proof.
  intros Hfs Hdoc. exists (with_catalog doc).
  assert (Hget : forall (x y : pyval) (cls id : string),
             normalize x = Ok cls -> normalize y = Ok id ->
             get_ship_params (with_catalog doc) x y = Raise AttributeError).
  { intros x y cls id Hx Hy. unfold get_ship_params.
    rewrite Hx, bind_ok, Hy, bind_ok. cbn [ship_data with_catalog].
    destruct doc; try reflexivity. exfalso. apply (Hdoc d). reflexivity. }
  split; [ | split].
  - unfold init, load_ship_data, try_except. rewrite Hfs. reflexivity.
  - exact Hget.
  - intros td Ht Hn. unfold calculate_lead_distance, dict_get at 4 5.
    rewrite Ht, Hn.
    rewrite (Hget _ _ "cruiser"%string "unknown"%string) by reflexivity.
    reflexivity.
Qed.

Lemma non_object_document_witness :
  exists calc,
    init (fun _ => Ok (PList [])) "ship_data.json" = Ok (calc, []) /\
    get_ship_params calc (PStr "cruiser") (PStr "zao") = Raise AttributeError /\
    calculate_lead_distance calc ∅ = Raise AttributeError.
Proof.
  destruct (non_object_document (fun _ => Ok (PList [])) "ship_data.json"
              (PList []) eq_refl) as (calc & Hi & Hg & Hl).
  - intros d. discriminate.
  - exists calc. split; [exact Hi | ]. split.
    + apply (Hg _ _ "cruiser"%string "zao"%string); reflexivity.
    + apply Hl; reflexivity.
Defined.

(** * Screen regions *)

Lemma py_int_between (a b : Z) (x : R) :
  IZR a <= x <= IZR b -> (a <= py_int x <= b)%Z.
Proof.
  intros [Ha Hb]. unfold py_int. destruct (Rle_dec 0 x) as [_ | _].
  - pose proof (Zfloor_bound x) as [Hlo _]. split.
    + apply Zfloor_lub. exact Ha.
    + apply le_IZR. lra.
  - pose proof (Zceil_bound x) as [Hlo Hhi]. split.
    + apply le_IZR. lra.
    + assert (H : (Zceil x < b + 1)%Z) by (apply lt_IZR; rewrite plus_IZR; lra).
      lia.
Qed.

Lemma py_int_fraction (n p q : Z) (x : R) :
  (0 <= n)%Z -> (0 < q)%Z -> (0 <= p)%Z ->
  x = IZR p / IZR q ->
  (q * py_int (IZR n * x) <= p * n < q * py_int (IZR n * x) + q)%Z.
Proof.
  intros Hn Hq Hp ->.
  assert (Hq' : 0 < IZR q) by (apply IZR_lt; exact Hq).
  assert (Hn' : 0 <= IZR n) by (apply IZR_le; exact Hn).
  assert (Hp' : 0 <= IZR p) by (apply IZR_le; exact Hp).
  assert (Hx : 0 <= IZR n * (IZR p / IZR q)).
  { apply Rmult_le_pos; [exact Hn' | ].
    apply Rmult_le_pos; [exact Hp' | ]. left. apply Rinv_0_lt_compat. exact Hq'. }
  destruct (py_int_nonneg _ Hx) as [Hlo Hhi].
  set (k := py_int (IZR n * (IZR p / IZR q))) in *.
  assert (E : IZR n * (IZR p / IZR q) * IZR q = IZR p * IZR n)
    by (field; lra).
  split.
  - apply le_IZR. rewrite !mult_IZR. nra.
  - apply lt_IZR. rewrite plus_IZR, !mult_IZR. nra.
Qed.

Lemma aim_area_size (h : Z) :
  (0 <= h)%Z ->
  (5 * py_int (IZR h * 0.4) <= 2 * h < 5 * py_int (IZR h * 0.4) + 5)%Z.
Proof.
  intros Hh. apply (py_int_fraction h 2 5 0.4); try lia. lra.
Qed.

(** X12: on a monitor of width [w] and height [h] with [0.4 * h <= w]
    the aim area is a square of side [floor (0.4 * h)] that lies inside
    the monitor, and its origin relative to the monitor is the pair of
    offsets the frame loop adds to the boxes detected in it. *)
Theorem aim_area_inside_monitor (monitor : region) :
  (0 <= r_width monitor)%Z -> (0 <= r_height monitor)%Z ->
  (2 * r_height monitor <= 5 * r_width monitor)%Z ->
  let area := capture_aim_area monitor in
  r_width area = r_height area /\
  (5 * r_width area <= 2 * r_height monitor < 5 * r_width area + 5)%Z /\
  (r_left monitor <= r_left area)%Z /\
  (r_left area + r_width area <= r_left monitor + r_width monitor)%Z /\
  (r_top monitor <= r_top area)%Z /\
  (r_top area + r_height area <= r_top monitor + r_height monitor)%Z /\
  r_left area = (r_left monitor + (aim_area_offsets monitor).1)%Z /\
  r_top area = (r_top monitor + (aim_area_offsets monitor).2)%Z.
Proof.
  intros Hw Hh Hwide. destruct monitor as [l t w h]. cbn [r_width r_height] in *.
  unfold capture_aim_area, aim_area_offsets, capture_region.
  cbn [r_left r_top r_width r_height fst snd].
  pose proof (aim_area_size h Hh) as Hsize.
  set (size := py_int (IZR h * 0.4)) in *. clearbody size.
  repeat split; try reflexivity; Z.div_mod_to_equations; lia.
Qed.

Lemma aim_area_inside_monitor_witness :
  let monitor := {| r_left := 0; r_top := 0; r_width := 1920; r_height := 1080 |} in
  let area := capture_aim_area monitor in
  r_width area = r_height area /\
  (5 * r_width area <= 2 * r_height monitor < 5 * r_width area + 5)%Z /\
  (r_left monitor <= r_left area)%Z /\
  (r_left area + r_width area <= r_left monitor + r_width monitor)%Z /\
  (r_top monitor <= r_top area)%Z /\
  (r_top area + r_height area <= r_top monitor + r_height monitor)%Z /\
  r_left area = (r_left monitor + (aim_area_offsets monitor).1)%Z /\
  r_top area = (r_top monitor + (aim_area_offsets monitor).2)%Z.
Proof.
  apply (aim_area_inside_monitor
           {| r_left := 0; r_top := 0; r_width := 1920; r_height := 1080 |});
    cbn [r_width r_height]; lia.
Defined.

(** X13: for a game resolution [(gw, gh)] with [gh >= 27] and
    [gh <= 4 * (gw - 20)] the minimap region is a square of side
    [floor (gh / 4)] inside the resolution whose right and bottom edges
    are 20 pixels from the right and bottom edges of the resolution. *)
Theorem minimap_inside_resolution (monitor : region) (gw gh : Z) :
  (27 <= gh)%Z -> (gh <= 4 * (gw - 20))%Z ->
  let m := capture_minimap monitor (gw, gh) in
  r_width m = r_height m /\
  (4 * r_width m <= gh < 4 * r_width m + 4)%Z /\
  (r_left monitor <= r_left m)%Z /\
  (r_top monitor <= r_top m)%Z /\
  (r_left m + r_width m = r_left monitor + gw - 20)%Z /\
  (r_top m + r_height m = r_top monitor + gh - 20)%Z.
Proof.
  intros Hgh Hgw. unfold capture_minimap, capture_region.
  cbn [r_left r_top r_width r_height fst snd].
  assert (Hsize := py_int_fraction gh 1 4 0.25 ltac:(lia) ltac:(lia) ltac:(lia)
                     ltac:(lra)).
  set (size := py_int (IZR gh * 0.25)) in *. clearbody size.
  repeat split; try reflexivity; Z.div_mod_to_equations; lia.
Qed.

Lemma minimap_inside_resolution_witness :
  let monitor := {| r_left := 0; r_top := 0; r_width := 1920; r_height := 1080 |} in
  let m := capture_minimap monitor (1920, 1080)%Z in
  r_width m = r_height m /\
  (4 * r_width m <= 1080 < 4 * r_width m + 4)%Z /\
  (r_left monitor <= r_left m)%Z /\
  (r_top monitor <= r_top m)%Z /\
  (r_left m + r_width m = r_left monitor + 1920 - 20)%Z /\
  (r_top m + r_height m = r_top monitor + 1080 - 20)%Z.
Proof.
  apply (minimap_inside_resolution
           {| r_left := 0; r_top := 0; r_width := 1920; r_height := 1080 |}
           1920 1080); lia.
Defined.

(** X14: for a game resolution [(gw, gh)] with [gw, gh >= 0] the target
    info region lies inside the resolution, is horizontally centered up
    to one pixel, starts at [floor (0.05 * gh)] from the top and is
    [floor (0.3 * gw)] wide and [floor (0.1 * gh)] high. *)
Theorem target_info_area_centered (monitor : region) (gw gh : Z) :
  (0 <= gw)%Z -> (0 <= gh)%Z ->
  let a := capture_target_info_area monitor (gw, gh) in
  let x := (r_left a - r_left monitor)%Z in
  let y := (r_top a - r_top monitor)%Z in
  (10 * r_width a <= 3 * gw < 10 * r_width a + 10)%Z /\
  (10 * r_height a <= gh < 10 * r_height a + 10)%Z /\
  (20 * y <= gh < 20 * y + 20)%Z /\
  (0 <= x)%Z /\ (x + r_width a <= gw)%Z /\
  (0 <= (gw - (x + r_width a)) - x <= 1)%Z /\
  (0 <= y)%Z /\ (y + r_height a <= gh)%Z.
Proof.
  intros Hgw Hgh. unfold capture_target_info_area, capture_region.
  cbn [r_left r_top r_width r_height fst snd].
  assert (Hw := py_int_fraction gw 3 10 0.3 ltac:(lia) ltac:(lia) ltac:(lia)
                  ltac:(lra)).
  assert (Hh := py_int_fraction gh 1 10 0.1 ltac:(lia) ltac:(lia) ltac:(lia)
                  ltac:(lra)).
  assert (Hy := py_int_fraction gh 1 20 0.05 ltac:(lia) ltac:(lia) ltac:(lia)
                  ltac:(lra)).
  set (width := py_int (IZR gw * 0.3)) in *.
  set (height := py_int (IZR gh * 0.1)) in *.
  set (top := py_int (IZR gh * 0.05)) in *.
  clearbody width height top. cbv zeta.
  repeat split; Z.div_mod_to_equations; lia.
Qed.

Lemma target_info_area_centered_witness :
  let a := capture_target_info_area
             {| r_left := 0; r_top := 0; r_width := 1920; r_height := 1080 |}
             (1920, 1080)%Z in
  let x := (r_left a - 0)%Z in
  let y := (r_top a - 0)%Z in
  (10 * r_width a <= 3 * 1920 < 10 * r_width a + 10)%Z /\
  (10 * r_height a <= 1080 < 10 * r_height a + 10)%Z /\
  (20 * y <= 1080 < 20 * y + 20)%Z /\
  (0 <= x)%Z /\ (x + r_width a <= 1920)%Z /\
  (0 <= (1920 - (x + r_width a)) - x <= 1)%Z /\
  (0 <= y)%Z /\ (y + r_height a <= 1080)%Z.
Proof.
  apply (target_info_area_centered
           {| r_left := 0; r_top := 0; r_width := 1920; r_height := 1080 |}
           1920 1080); lia.
Defined.

(** * Detections *)

Lemma detect_fold (thr : R) (preds : list (list prediction))
    (acc : list detection) :
  fold_left
    (fun detections pred =>
       if (0 <? length pred)%nat then
         detections ++
           map to_detection
             (List.filter
                (fun row : prediction =>
                   if Rle_dec thr row.1.2 then true else false) pred)
       else detections)
    preds acc =
  acc ++ flat_map
           (fun pred =>
              map to_detection
                (List.filter
                   (fun row : prediction =>
                      if Rle_dec thr row.1.2 then true else false) pred))
           preds.
Proof.
  revert acc. induction preds as [ | pred rest IH]; intros acc; simpl.
  - rewrite app_nil_r. reflexivity.
  - rewrite IH. destruct pred as [ | row pred'].
    + simpl. reflexivity.
    + cbn [length Nat.ltb Nat.leb]. rewrite <- app_assoc. reflexivity.
Qed.

(** X15: without a model no ship is detected; with one, the detections
    are exactly the rows whose confidence is at least the threshold,
    converted with truncated coordinates: every returned detection comes
    from such a row and has confidence at least the threshold, and every
    such row is returned. *)
Theorem detect_ships_confident (preds : list (list prediction)) (thr : R) :
  detect_ships None thr = [] /\
  (forall det, In det (detect_ships (Some preds) thr) <->
     exists pred row,
       In pred preds /\ In row pred /\ thr <= row.1.2 /\
       det = to_detection row) /\
  (forall det, In det (detect_ships (Some preds) thr) -> thr <= confidence det).
Proof.
  split; [reflexivity | ].
  assert (Hchar : forall det, In det (detect_ships (Some preds) thr) <->
     exists pred row,
       In pred preds /\ In row pred /\ thr <= row.1.2 /\
       det = to_detection row).
  { intros det. unfold detect_ships. rewrite detect_fold, app_nil_l.
    rewrite in_flat_map. split.
    - intros (pred & Hp & Hd). apply in_map_iff in Hd as (row & <- & Hr).
      apply filter_In in Hr as (Hr & Hc).
      exists pred, row. repeat split; try assumption.
      destruct (Rle_dec thr row.1.2); [assumption | discriminate].
    - intros (pred & row & Hp & Hr & Hc & ->). exists pred. split; [assumption | ].
      apply in_map, filter_In. split; [assumption | ].
      destruct (Rle_dec thr row.1.2); [reflexivity | contradiction]. }
  split; [exact Hchar | ].
  intros det Hd. apply Hchar in Hd as (pred & row & _ & _ & Hc & ->).
  destruct row as [[[[[x1 y1] x2] y2] conf] c]. exact Hc.
Qed.

(** X16: moving a box by the aim-area offsets moves its center by the
    same offsets and keeps its dimensions; the center of a box with
    [x1 <= x2] and [y1 <= y2] lies inside the box, at half the width and
    half the height from its top-left corner. *)
Theorem center_of_adjusted_ship (ship : detection) (x_offset y_offset : Z) :
  (get_center_of_detection (adjust_ship x_offset y_offset ship)).1 =
    ((get_center_of_detection ship).1 + x_offset)%Z /\
  (get_center_of_detection (adjust_ship x_offset y_offset ship)).2 =
    ((get_center_of_detection ship).2 + y_offset)%Z /\
  get_ship_dimensions (adjust_ship x_offset y_offset ship) =
    get_ship_dimensions ship /\
  (forall x1 y1 x2 y2, bbox ship = (x1, y1, x2, y2) ->
     (x1 <= x2)%Z -> (y1 <= y2)%Z ->
     (x1 <= (get_center_of_detection ship).1 <= x2)%Z /\
     (y1 <= (get_center_of_detection ship).2 <= y2)%Z /\
     (get_center_of_detection ship).1 =
       (x1 + (get_ship_dimensions ship).1 / 2)%Z /\
     (get_center_of_detection ship).2 =
       (y1 + (get_ship_dimensions ship).2 / 2)%Z).
Proof.
  destruct ship as [[[[x1 y1] x2] y2] conf c].
  unfold get_center_of_detection, get_ship_dimensions, adjust_ship.
  cbn [bbox fst snd].
  repeat split.
  - Z.div_mod_to_equations; lia.
  - Z.div_mod_to_equations; lia.
  - f_equal; lia.
  - injection H as -> -> -> ->. Z.div_mod_to_equations; lia.
  - injection H as -> -> -> ->. Z.div_mod_to_equations; lia.
  - injection H as -> -> -> ->. Z.div_mod_to_equations; lia.
  - injection H as -> -> -> ->. Z.div_mod_to_equations; lia.
  - injection H as -> -> -> ->. Z.div_mod_to_equations; lia.
  - injection H as -> -> -> ->. Z.div_mod_to_equations; lia.
Qed.

(** * The closest ship *)

Lemma closest_step_spec (center : Z * Z) (m0 : R) (s0 : detection)
    (c0 : Z * Z) (ship : detection) :
  closest_step center (Some m0, Some s0, Some c0) ship =
    if Rlt_dec (center_distance center ship) m0
    then (Some (center_distance center ship), Some ship,
          Some (get_center_of_detection ship))
    else (Some m0, Some s0, Some c0).
Proof.
  unfold closest_step, center_distance, get_center_of_detection.
  destruct (bbox ship) as [[[x1 y1] x2] y2].
  destruct (Rlt_dec _ m0); reflexivity.
Qed.

Lemma closest_step_first (center : Z * Z) (prev : option (Z * Z))
    (ship : detection) :
  closest_step center (None, None, prev) ship =
    (Some (center_distance center ship), Some ship,
     Some (get_center_of_detection ship)).
Proof.
  unfold closest_step, center_distance, get_center_of_detection.
  destruct (bbox ship) as [[[x1 y1] x2] y2]. reflexivity.
Qed.

Lemma closest_fold (center : Z * Z) (l : list detection) :
  forall (m0 : R) (s0 : detection) (c0 : Z * Z),
    let r := fold_left (closest_step center) l (Some m0, Some s0, Some c0) in
    (r = (Some m0, Some s0, Some c0) /\
     forall s, In s l -> m0 <= center_distance center s) \/
    (exists l1 ship l2,
       l = l1 ++ ship :: l2 /\
       r = (Some (center_distance center ship), Some ship,
            Some (get_center_of_detection ship)) /\
       center_distance center ship < m0 /\
       (forall s, In s l1 ->
          center_distance center ship < center_distance center s) /\
       (forall s, In s l2 ->
          center_distance center ship <= center_distance center s)).
Proof.
  induction l as [ | a l IH]; intros m0 s0 c0; cbn [fold_left].
  - left. split; [reflexivity | ]. intros s [].
  - rewrite closest_step_spec.
    destruct (Rlt_dec (center_distance center a) m0) as [Hlt | Hge].
    + specialize (IH (center_distance center a) a (get_center_of_detection a)).
      cbv zeta in IH. destruct IH as [[Hr Hall] | (l1 & ship & l2 & -> & Hr & Hlt' & H1 & H2)].
      * right. exists [], a, l. split; [reflexivity | ].
        split; [exact Hr | ]. split; [exact Hlt | ].
        split; [intros s [] | exact Hall].
      * right. exists (a :: l1), ship, l2. split; [reflexivity | ].
        split; [exact Hr | ]. split; [lra | ]. split; [ | exact H2].
        intros s [<- | Hs]; [exact Hlt' | apply H1; exact Hs].
    + specialize (IH m0 s0 c0). cbv zeta in IH.
      destruct IH as [[Hr Hall] | (l1 & ship & l2 & -> & Hr & Hlt' & H1 & H2)].
      * left. split; [exact Hr | ].
        intros s [<- | Hs]; [lra | apply Hall; exact Hs].
      * right. exists (a :: l1), ship, l2. split; [reflexivity | ].
        split; [exact Hr | ]. split; [exact Hlt' | ]. split; [ | exact H2].
        intros s [<- | Hs]; [lra | apply H1; exact Hs].
Qed.

(** X17: when at least one ship is detected, the loop selects the first
    ship whose box center is nearest to the screen center: every earlier
    ship is strictly farther and every later ship is at least as far.
    The target center is set to the center of the selected box, whatever
    it was in the previous frame. *)
Theorem select_closest_first_nearest (center : Z * Z) (ships : list detection)
    (prev : option (Z * Z)) :
  ships <> [] ->
  exists l1 ship l2,
    ships = l1 ++ ship :: l2 /\
    select_closest center ships prev =
      (Some (center_distance center ship), Some ship,
       Some (get_center_of_detection ship)) /\
    (forall s, In s l1 ->
       center_distance center ship < center_distance center s) /\
    (forall s, In s l2 ->
       center_distance center ship <= center_distance center s).
Proof.
  intros Hne. destruct ships as [ | a l]; [contradiction | ].
  unfold select_closest. cbn [fold_left]. rewrite closest_step_first.
  destruct (closest_fold center l (center_distance center a) a
              (get_center_of_detection a))
    as [[Hr Hall] | (l1 & ship & l2 & -> & Hr & Hlt & H1 & H2)].
  - exists [], a, l. split; [reflexivity | ]. split; [exact Hr | ].
    split; [intros s [] | exact Hall].
  - exists (a :: l1), ship, l2. split; [reflexivity | ]. split; [exact Hr | ].
    split; [ | exact H2].
    intros s [<- | Hs]; [exact Hlt | apply H1; exact Hs].
Qed.

Lemma three_ships_distances :
  center_distance (960, 540)%Z far_ship = sqrt 808200 /\
  center_distance (960, 540)%Z near_ship = sqrt 200 /\
  center_distance (960, 540)%Z tied_ship = sqrt 200 /\
  sqrt 200 < sqrt 808200.
Proof.
  repeat split. apply sqrt_lt_1_alt. lra.
Qed.

Lemma three_ships_first_nearest (l1 l2 : list detection) (ship : detection) :
  [far_ship; near_ship; tied_ship] = l1 ++ ship :: l2 ->
  (forall s, In s l1 ->
     center_distance (960, 540)%Z ship < center_distance (960, 540)%Z s) ->
  (forall s, In s l2 ->
     center_distance (960, 540)%Z ship <= center_distance (960, 540)%Z s) ->
  ship = near_ship.
Proof.
  destruct three_ships_distances as (Hfar & Hnear & Htie & Hlt).
  intros Hsplit H1 H2.
  destruct l1 as [ | a [ | b [ | c l1]]]; cbn [app] in Hsplit.
  - injection Hsplit as <- <-.
    specialize (H2 near_ship ltac:(left; reflexivity)). lra.
  - injection Hsplit as <- <- <-. reflexivity.
  - injection Hsplit as <- <- <- <-.
    specialize (H1 near_ship ltac:(right; left; reflexivity)). lra.
  - injection Hsplit as _ _ _ Hnil. destruct l1; discriminate Hnil.
Qed.

Lemma select_closest_first_nearest_witness :
  [far_ship; near_ship; tied_ship] <> [] /\
  select_closest (960, 540)%Z [far_ship; near_ship; tied_ship]
    (Some (1, 1)%Z) =
    (Some (sqrt 200), Some near_ship, Some (950, 530)%Z).
Proof.
  split; [discriminate | ].
  destruct (select_closest_first_nearest (960, 540)%Z
              [far_ship; near_ship; tied_ship] (Some (1, 1)%Z))
    as (l1 & ship & l2 & Hsplit & Hsel & H1 & H2); [discriminate | ].
  rewrite (three_ships_first_nearest l1 l2 ship Hsplit H1 H2) in Hsel.
  exact Hsel.
Defined.

(** * Moving the pointer *)

Lemma sqrt_IZR_gt (n k : Z) :
  (0 <= k)%Z -> (k * k < n)%Z -> IZR k < sqrt (IZR n).
Proof.
  intros Hk Hn.
  assert (Hk' : 0 <= IZR k) by (apply IZR_le; exact Hk).
  rewrite <- (sqrt_square (IZR k)) by exact Hk'.
  apply sqrt_lt_1_alt. split; [nra | ].
  rewrite <- mult_IZR. apply IZR_lt. exact Hn.
Qed.

Lemma sqrt_IZR_lt (n k : Z) :
  (0 <= k)%Z -> (0 <= n < k * k)%Z -> sqrt (IZR n) < IZR k.
Proof.
  intros Hk [Hn0 Hn].
  assert (Hk' : 0 <= IZR k) by (apply IZR_le; exact Hk).
  rewrite <- (sqrt_square (IZR k)) by exact Hk'.
  apply sqrt_lt_1_alt. split; [apply IZR_le; exact Hn0 | ].
  rewrite <- mult_IZR. apply IZR_lt. exact Hn.
Qed.

Lemma sqrt_IZR_le (n k : Z) :
  (0 <= k)%Z -> (0 <= n <= k * k)%Z -> sqrt (IZR n) <= IZR k.
Proof.
  intros Hk [Hn0 Hn].
  assert (Hk' : 0 <= IZR k) by (apply IZR_le; exact Hk).
  rewrite <- (sqrt_square (IZR k)) by exact Hk'.
  apply sqrt_le_1_alt. rewrite <- mult_IZR. apply IZR_le. exact Hn.
Qed.

Lemma sqrt_IZR_ge (n k : Z) :
  (0 <= k)%Z -> (k * k <= n)%Z -> IZR k <= sqrt (IZR n).
Proof.
  intros Hk Hn.
  assert (Hk' : 0 <= IZR k) by (apply IZR_le; exact Hk).
  rewrite <- (sqrt_square (IZR k)) by exact Hk'.
  apply sqrt_le_1_alt. rewrite <- mult_IZR. apply IZR_le. exact Hn.
Qed.

(** X18: the pointer is not moved when auto-aim is off, when there is
    no aim point, or when the aim point is at most 5 or at least 200
    pixels away from the pointer. *)
Theorem move_mouse_idle (auto_aim : bool) (aim_point : option (Z * Z))
    (cursor : Z * Z) :
  move_mouse_to_aim_point false aim_point cursor = [] /\
  move_mouse_to_aim_point auto_aim None cursor = [] /\
  (forall target_x target_y,
     let dx := (target_x - cursor.1)%Z in
     let dy := (target_y - cursor.2)%Z in
     (dx ^ 2 + dy ^ 2 <= 25)%Z \/ (40000 <= dx ^ 2 + dy ^ 2)%Z ->
     move_mouse_to_aim_point auto_aim (Some (target_x, target_y)) cursor = []).
Proof.
  split; [ | split].
  - destruct aim_point as [[tx ty] | ]; reflexivity.
  - reflexivity.
  - intros tx ty dx dy Hfar. destruct cursor as [cx cy]. cbn [fst snd] in *.
    unfold move_mouse_to_aim_point.
    destruct (negb auto_aim || _); [reflexivity | ].
    fold dx dy. set (n := (dx ^ 2 + dy ^ 2)%Z) in *.
    assert (Hn : (0 <= n)%Z) by (subst n; nia).
    clearbody n.
    destruct (Rlt_dec 5 (sqrt (IZR n))) as [H5 | _]; [ | reflexivity].
    destruct (Rlt_dec (sqrt (IZR n)) 200) as [H200 | _]; [ | reflexivity].
    exfalso. destruct Hfar as [Hle | Hge].
    + pose proof (sqrt_IZR_le n 5 ltac:(lia) ltac:(lia)). lra.
    + pose proof (sqrt_IZR_ge n 200 ltac:(lia) ltac:(lia)). lra.
Qed.

Lemma step_between (c dx i steps : Z) :
  (1 <= i <= steps)%Z ->
  IZR (Z.min c (c + dx)) <= IZR c + IZR (dx * i) / IZR steps
    <= IZR (Z.max c (c + dx)).
Proof.
  intros Hi.
  assert (Hs : 0 < IZR steps) by (apply IZR_lt; lia).
  assert (Hi0 : 0 <= IZR i / IZR steps <= 1).
  { split.
    - apply Rmult_le_pos; [apply IZR_le; lia | ]. left. apply Rinv_0_lt_compat. exact Hs.
    - apply Rmult_le_reg_r with (IZR steps); [exact Hs | ].
      unfold Rdiv. rewrite Rmult_assoc, Rinv_l by lra.
      rewrite Rmult_1_r, Rmult_1_l. apply IZR_le. lia. }
  replace (IZR (dx * i) / IZR steps) with (IZR dx * (IZR i / IZR steps))
    by (rewrite mult_IZR; unfold Rdiv; ring).
  set (t := IZR i / IZR steps) in *. clearbody t.
  destruct (Z.le_ge_cases 0 dx) as [Hdx | Hdx].
  - rewrite Z.min_l, Z.max_r by lia. rewrite plus_IZR.
    assert (0 <= IZR dx) by (apply IZR_le; exact Hdx). nra.
  - rewrite Z.min_r, Z.max_l by lia. rewrite plus_IZR.
    assert (IZR dx <= 0) by (apply IZR_le; exact Hdx). nra.
Qed.

(** X19: with auto-aim on and an aim point more than 5 and less than
    200 pixels from the pointer, the pointer is moved in at least 1 and
    at most 19 steps; every position it is set to lies, coordinate by
    coordinate, between its starting position and the aim point, and the
    last position is the aim point itself. *)
Theorem move_mouse_reaches_aim_point (target_x target_y current_x current_y : Z) :
  let dx := (target_x - current_x)%Z in
  let dy := (target_y - current_y)%Z in
  (25 < dx ^ 2 + dy ^ 2 < 40000)%Z ->
  let moves :=
    move_mouse_to_aim_point true (Some (target_x, target_y))
      (current_x, current_y) in
  (1 <= length moves <= 19)%nat /\
  last moves = Some (target_x, target_y) /\
  Forall (fun p : Z * Z =>
            (Z.min current_x target_x <= p.1 <= Z.max current_x target_x)%Z /\
            (Z.min current_y target_y <= p.2 <= Z.max current_y target_y)%Z)
         moves.
Proof.
  intros dx dy Hd moves. subst moves. unfold move_mouse_to_aim_point.
  cbn [negb orb]. rewrite bool_decide_eq_true_2 by (eexists; reflexivity).
  cbn [negb]. fold dx dy.
  set (n := (dx ^ 2 + dy ^ 2)%Z) in *.
  pose proof (sqrt_IZR_gt n 5 ltac:(lia) ltac:(lia)) as H5.
  pose proof (sqrt_IZR_lt n 200 ltac:(lia) ltac:(lia)) as H200.
  destruct (Rlt_dec 5 (sqrt (IZR n))) as [_ | N]; [ | contradiction].
  destruct (Rlt_dec (sqrt (IZR n)) 200) as [_ | N]; [ | contradiction].
  set (dist := sqrt (IZR n)) in *.
  assert (Hq : (0 <= py_int (dist / 10) <= 19)%Z).
  { assert (H0 : 0 <= dist / 10) by lra.
    destruct (py_int_nonneg _ H0) as [Hlo Hhi]. split.
    - apply py_int_ge_0. exact H0.
    - assert (H : (py_int (dist / 10) < 20)%Z) by (apply lt_IZR; lra). lia. }
  set (steps := Z.max 1 (py_int (dist / 10))) in *.
  assert (Hsteps : (1 <= steps <= 19)%Z) by (subst steps; lia).
  clearbody steps.
  split; [ | split].
  - rewrite length_map, length_seqZ. lia.
  - rewrite last_lookup, length_map, length_seqZ, list_lookup_fmap.
    assert (Hl : seqZ 1 steps !! Nat.pred (Z.to_nat steps) = Some steps).
    { apply lookup_seqZ. split; lia. }
    rewrite Hl. cbn [fmap option_fmap option_map].
    assert (Hs : IZR steps <> 0) by (apply not_0_IZR; lia).
    assert (Ex : IZR current_x + IZR (dx * steps) / IZR steps = IZR target_x).
    { rewrite mult_IZR. unfold dx. rewrite minus_IZR. field. exact Hs. }
    assert (Ey : IZR current_y + IZR (dy * steps) / IZR steps = IZR target_y).
    { rewrite mult_IZR. unfold dy. rewrite minus_IZR. field. exact Hs. }
    rewrite Ex, Ey, !py_int_IZR. reflexivity.
  - apply Forall_fmap, Forall_seqZ. intros i Hi. cbn [fst snd compose].
    replace target_x with (current_x + dx)%Z by (unfold dx; lia).
    replace target_y with (current_y + dy)%Z by (unfold dy; lia).
    split; apply py_int_between, step_between; lia.
Qed.

Lemma move_mouse_reaches_aim_point_witness :
  let moves := move_mouse_to_aim_point true (Some (130, 140)%Z) (100, 100)%Z in
  (1 <= length moves <= 19)%nat /\
  last moves = Some (130, 140)%Z /\
  Forall (fun p : Z * Z =>
            (Z.min 100 130 <= p.1 <= Z.max 100 130)%Z /\
            (Z.min 100 140 <= p.2 <= Z.max 100 140)%Z)
         moves.
Proof.
  apply (move_mouse_reaches_aim_point 130 140 100 100). lia.
Defined.

(** * The target data of a frame *)

Lemma frame_target_lookups (distance speed : option R)
    (ship_info : gmap string pyval) (angle : R) :
  let td := frame_target_data distance speed ship_info angle in
  dict_get td "distance" (PNum 10) = opt_num distance /\
  dict_get td "speed" (PNum 0) = opt_num speed /\
  dict_get td "angle" (PNum 90) = PNum angle /\
  dict_get td "ship_type" (PStr "cruiser") = PStr "cruiser" /\
  dict_get td "ship_name" (PStr "unknown") = PStr "unknown".
Proof.
  cbv zeta. unfold frame_target_data, target_info, dict_get.
  repeat split.
Qed.

Lemma frame_lead_unfold (self : AimCalculator) (distance speed : option R)
    (ship_info : gmap string pyval) (angle : R) :
  calculate_lead_distance self
    (frame_target_data distance speed ship_info angle) =
  calculate_lead_distance self
    (<["distance" := opt_num distance]>
     (<["speed" := opt_num speed]> (<["angle" := PNum angle]> ∅))).
Proof.
  destruct (frame_target_lookups distance speed ship_info angle)
    as (Hd & Hs & Ha & Ht & Hn).
  unfold calculate_lead_distance. rewrite Hd, Hs, Ha, Ht, Hn.
  unfold dict_get.
  rewrite lookup_insert_eq.
  rewrite (lookup_insert_ne _ "distance" "speed") by discriminate.
  rewrite lookup_insert_eq.
  rewrite (lookup_insert_ne _ "distance" "angle") by discriminate.
  rewrite (lookup_insert_ne _ "speed" "angle") by discriminate.
  rewrite lookup_insert_eq.
  rewrite !lookup_insert_ne, lookup_empty by discriminate.
  reflexivity.
Qed.

Lemma fallback_params_cruiser (doc : pyval) :
  catalog_shaped doc -> catalog_entry doc "cruiser" "unknown" = None ->
  get_ship_params (with_catalog doc) (PStr "cruiser") (PStr "unknown") =
    Ok (params 32.0 1.8 850).
Proof.
  intros (d & -> & Hshape) Hentry.
  rewrite (get_ship_params_absent _ d _ _ "cruiser" "unknown");
    try reflexivity.
  unfold catalog_entry in Hentry.
  destruct (d !! ("cruiser" +:+ "s")) as [v | ] eqn:E; [ | left; reflexivity].
  destruct (Hshape _ _ E) as [t ->]. right. exists t.
  split; [reflexivity | assumption].
Qed.

(** X20: the frame loop stores the recognized ship under ['ship_info'],
    a key the calculator never reads.  Whatever class or name was
    recognized, the lead is computed for a cruiser of unknown name; with
    a catalog that has no such entry the shell velocity is 850 m/s. *)
Theorem frame_ignores_ship_info (doc : pyval) (distance speed : option R)
    (ship_info ship_info' : gmap string pyval) (angle : R) :
  calculate_lead_distance (with_catalog doc)
    (frame_target_data distance speed ship_info angle) =
  calculate_lead_distance (with_catalog doc)
    (frame_target_data distance speed ship_info' angle) /\
  (forall d s : R,
     catalog_shaped doc -> catalog_entry doc "cruiser" "unknown" = None ->
     distance = Some d -> d <> 0 -> speed = Some s ->
     calculate_lead_distance (with_catalog doc)
       (frame_target_data distance speed ship_info angle) =
     Ok (lead_pixels d s angle 850,
         lead_pixels d s angle 850 * sin (radians angle),
         - lead_pixels d s angle 850 * cos (radians angle))).
Proof.
  split.
  - rewrite !frame_lead_unfold. reflexivity.
  - intros d s Hshape Hentry -> Hd0 ->.
    destruct (frame_target_lookups (Some d) (Some s) ship_info angle)
      as (Hd & Hs & Ha & Ht & Hn).
    apply lead_distance_ok; try assumption; try lra.
    + rewrite Hd. reflexivity.
    + rewrite Hs. reflexivity.
    + rewrite Ha. reflexivity.
    + unfold shell_velocity_for. rewrite Ht, Hn.
      rewrite (fallback_params_cruiser doc Hshape Hentry). reflexivity.
Qed.

(** X21: when the recognizer reads no distance or no speed, the key is
    still present, with the value [None], so no default is substituted:
    for a calculator that resolves the cruiser record, the lead and the
    aim point computations raise [TypeError]. *)
Theorem unread_field_raises (doc : pyval) (distance speed : option R)
    (ship_info r : gmap string pyval) (angle : R) (c sz : Z * Z) :
  get_ship_params (with_catalog doc) (PStr "cruiser") (PStr "unknown") =
    Ok (PDict r) ->
  distance = None \/ speed = None ->
  calculate_lead_distance (with_catalog doc)
    (frame_target_data distance speed ship_info angle) = Raise TypeError /\
  calculate_aim_point (with_catalog doc) c
    (frame_target_data distance speed ship_info angle) sz = Raise TypeError.
Proof.
  intros Hp Hnone.
  destruct (frame_target_lookups distance speed ship_info angle)
    as (Hd & Hs & Ha & Ht & Hn).
  assert (Hlead : calculate_lead_distance (with_catalog doc)
            (frame_target_data distance speed ship_info angle) = Raise TypeError).
  { unfold calculate_lead_distance. rewrite Hd, Hs, Ha, Ht, Hn, Hp.
    rewrite bind_ok, py_get_dict, bind_ok.
    destruct speed as [s | ]; [ | reflexivity].
    cbn [opt_num as_num]. rewrite !bind_ok.
    destruct distance as [d | ]; [ | reflexivity].
    destruct Hnone as [H | H]; discriminate H. }
  split; [exact Hlead | ].
  unfold calculate_aim_point. rewrite Hlead. reflexivity.
Qed.

Lemma unread_field_raises_witness :
  calculate_lead_distance (with_catalog (PDict ∅))
    (frame_target_data None (Some 25) ∅ 30) = Raise TypeError /\
  calculate_aim_point (with_catalog (PDict ∅)) (960, 540)%Z
    (frame_target_data None (Some 25) ∅ 30) (1920, 1080)%Z = Raise TypeError.
Proof.
  apply (unread_field_raises (PDict ∅) None (Some 25) ∅
           (<["max_speed" := PNum 32.0]>
            (<["acceleration" := PNum 1.8]>
             (<["shell_velocity" := PNum 850]> ∅))) 30).
  - reflexivity.
  - left. reflexivity.
Defined.

(** * Ship information in the recognized text *)

Lemma ship_info_step_skip (m : gmap string pyval) (line : string) :
  mentions_class line = false -> ship_info_step m line = m.
Proof.
  unfold mentions_class, ship_info_step. intros ->. reflexivity.
Qed.

Lemma ship_info_fold_skip (l : list string) (m : gmap string pyval) :
  (forall line, In line l -> mentions_class line = false) ->
  fold_left ship_info_step l m = m.
Proof.
  revert m. induction l as [ | a l IH]; intros m H; cbn [fold_left].
  - reflexivity.
  - rewrite ship_info_step_skip by (apply H; left; reflexivity).
    apply IH. intros line Hl. apply H. right. exact Hl.
Qed.

Lemma ship_info_step_hit (m : gmap string pyval) (line : string) :
  mentions_class line = true ->
  exists t,
    List.find (fun t => contains t (lower line)) ship_types = Some t /\
    In t ship_types /\
    ship_info_step m line =
      <["name" := PStr (strip line)]> (<["type" := PStr t]> m).
Proof.
  intros H. unfold ship_info_step. unfold mentions_class in H. rewrite H.
  apply existsb_exists in H as (t0 & Hin & Hc).
  destruct (List.find (fun t => contains t (lower line)) ship_types) as [t | ] eqn:E.
  - exists t. split; [reflexivity | ]. split; [ | reflexivity].
    apply find_some in E. apply E.
  - exfalso. apply (find_none _ _ E) in Hin. cbv beta in Hin. congruence.
Qed.

Lemma ship_info_keys (l : list string) (m : gmap string pyval) :
  (forall k, k <> "name"%string -> k <> "type"%string -> m !! k = None) ->
  forall k, k <> "name"%string -> k <> "type"%string ->
    fold_left ship_info_step l m !! k = None.
Proof.
  revert m. induction l as [ | a l IH]; intros m Hm; cbn [fold_left].
  - exact Hm.
  - apply IH. intros k Hn Ht. unfold ship_info_step.
    destruct (existsb _ ship_types); [ | apply Hm; assumption].
    rewrite !lookup_insert_ne by congruence. apply Hm; assumption.
Qed.

(** X22: the ship information taken from the recognized text is empty
    when no line mentions a class name.  Otherwise it comes from the last
    line that mentions one: its type is the first of destroyer, cruiser,
    battleship, carrier that occurs in the lower-cased line, its name is
    the whole line without surrounding white space, and it has no other
    key. *)
Theorem ship_info_from_last_mention (text : string) :
  ((forall line, In line (split_newline EmptyString text) ->
      mentions_class line = false) ->
   extract_ship_info text = ∅) /\
  (forall before line after,
     split_newline EmptyString text = before ++ line :: after ->
     mentions_class line = true ->
     (forall l, In l after -> mentions_class l = false) ->
     exists t,
       List.find (fun t => contains t (lower line)) ship_types = Some t /\
       In t ship_types /\
       extract_ship_info text =
         <["name" := PStr (strip line)]> (<["type" := PStr t]> ∅)).
Proof.
  split.
  - intros H. unfold extract_ship_info. apply ship_info_fold_skip. exact H.
  - intros before line after Hsplit Hline Hafter.
    unfold extract_ship_info. rewrite Hsplit, fold_left_app. cbn [fold_left].
    set (m := fold_left ship_info_step before ∅).
    destruct (ship_info_step_hit m line Hline) as (t & Hfind & Hin & Hstep).
    exists t. split; [exact Hfind | ]. split; [exact Hin | ].
    rewrite Hstep, ship_info_fold_skip by exact Hafter.
    apply map_eq. intros k.
    destruct (decide (k = "name"%string)) as [-> | Hn].
    { rewrite !lookup_insert_eq. reflexivity. }
    rewrite !(lookup_insert_ne _ "name" k) by congruence.
    destruct (decide (k = "type"%string)) as [-> | Ht].
    { rewrite !lookup_insert_eq. reflexivity. }
    rewrite !(lookup_insert_ne _ "type" k) by congruence.
    rewrite lookup_empty. subst m. apply ship_info_keys; try assumption.
    intros k' _ _. apply lookup_empty.
Qed.

Example ship_info_sample :
  extract_ship_info
    ("12.4 km" +:+ String "010" "  Tier X Destroyer Shimakaze " +:+
     String "010" "31 kn") =
  <["name" := PStr "Tier X Destroyer Shimakaze"]>
    (<["type" := PStr "destroyer"]> ∅).
Proof. reflexivity. Qed.
